(** * DeepMoon: coordinate transforms and the crater dataset adapter

    A shallow embedding of

    - [deepmoon/coord/transformation.py]: [coord2pix], [pix2coord], [km2pix];
    - [deepmoon/learning/moondata.py]: [MoonCrater.__init__], [__len__].

    The Python functions are duck-typed over their numeric arguments
    ("float or ndarray"), so the embedding is written once over an interface
    of numbers and then instantiated twice: with the real numbers, for the
    algebra of the formulas in exact arithmetic, and with the host's values
    (Python floats and NumPy arrays over IEEE binary64), for what the
    functions do on a zero divisor and for running them on examples.
    Exceptions are explicit: every operation returns a [result]. *)

From Stdlib Require Import ZArith List String Reals Lra Floats.
From stdpp Require Import gmap strings pretty.
Import ListNotations.

Local Open Scope string_scope.

(** ** Host semantics: exceptions and the error monad *)

Module Py.

(** The exceptions the modelled code can raise. *)
Inductive exn : Type :=
  | ZeroDivisionError
  | IndexError
  | ValueError
  | TypeError
  | KeyError
  | AssertionError
  | FileNotFoundError
  | IsADirectoryError
  | JSONDecodeError
  | OverflowError.

Inductive result (A : Type) : Type :=
  | Ok (a : A)
  | Raise (e : exn).
Arguments Ok {A} a.
Arguments Raise {A} e.

Definition bind {A B : Type} (m : result A) (k : A -> result B) : result B :=
  match m with
  | Ok a => k a
  | Raise e => Raise e
  end.

Definition rmap {A B : Type} (f : A -> B) (m : result A) : result B :=
  bind m (fun a => Ok (f a)).

(** [l[i]] for a non-negative literal index, as the interpreter evaluates
    it on a list or a tuple. The transforms are only stated on limits of
    four entries and dimensions of two, where the index is in range. *)
Definition getitem {A : Type} (l : list A) (i : nat) : result A :=
  match nth_error l i with
  | Some a => Ok a
  | None => Raise IndexError
  end.

(** A binary operator: the left operand is evaluated first, then the right
    one, then the operation itself; the first exception wins. *)
Definition binop {A : Type} (op : A -> A -> result A)
    (l r : result A) : result A :=
  bind l (fun x => bind r (fun y => op x y)).

(** The numbers the transforms are applied to. Every operation can raise:
    true division by zero, or a shape mismatch between arrays. The literals
    of the source ([180.], [np.pi] and the defaults [1.] and [1737.4]) are
    part of the interface. *)
Class Number (T : Type) : Type := {
  sub : T -> T -> result T;
  add : T -> T -> result T;
  mul : T -> T -> result T;
  truediv : T -> T -> result T;
  lit_180 : T;
  lit_1 : T;
  lit_1737_4 : T;
  np_pi : T
}.

End Py.

Import Py.

Declare Scope py_scope.
Delimit Scope py_scope with py.
#[global] Instance result_bind : MBind result := fun A B k m => bind m k.
#[global] Instance result_ret : MRet result := @Ok.
#[global] Instance result_fmap : FMap result := @rmap.
Notation "a - b" := (binop sub a b) : py_scope.
Notation "a + b" := (binop add a b) : py_scope.
Notation "a * b" := (binop mul a b) : py_scope.
Notation "a / b" := (binop truediv a b) : py_scope.
Notation "l .[ i ]" := (getitem l i) (at level 1, format "l .[ i ]") : py_scope.

(** ** deepmoon/coord/transformation.py *)

Module Transformation.
Section Generic.
Context {T : Type} `{Number T}.
Local Open Scope py_scope.

Definition origin_default : string := "upper".

Definition coord2pix (cx cy : T) (coord_lim imgdim : list T)
    (origin : string) : result (T * T) :=
  x ← imgdim.[0] * (Ok cx - coord_lim.[0]) / (coord_lim.[1] - coord_lim.[0]) ;
  y ← (if String.eqb origin "lower" then
          imgdim.[1] * (Ok cy - coord_lim.[2]) / (coord_lim.[3] - coord_lim.[2])
        else
          imgdim.[1] * (coord_lim.[3] - Ok cy) / (coord_lim.[3] - coord_lim.[2])) ;
  Ok (x, y).

Definition pix2coord (x y : T) (coord_lim imgdim : list T)
    (origin : string) : result (T * T) :=
  cx ← (Ok x / imgdim.[0]) * (coord_lim.[1] - coord_lim.[0]) + coord_lim.[0] ;
  cy ← (if String.eqb origin "lower" then
           (Ok y / imgdim.[1]) * (coord_lim.[3] - coord_lim.[2]) + coord_lim.[2]
         else
           coord_lim.[3] - (Ok y / imgdim.[1]) * (coord_lim.[3] - coord_lim.[2])) ;
  Ok (cx, cy).

Definition km2pix_dc_default : T := lit_1.
Definition km2pix_a_default : T := lit_1737_4.

Definition km2pix (imgheight latextent dc a : T) : result T :=
  (Ok lit_180 / Ok np_pi) * Ok imgheight * Ok dc / Ok latextent / Ok a.

End Generic.
End Transformation.

(** ** Exact arithmetic: the real numbers as [Number]

    True division raises [ZeroDivisionError] on a zero divisor, as Python's
    [/] does on numbers; the other operations never raise. This instance is
    an idealisation of the arithmetic the source computes with: it has no
    rounding, no overflow and no underflow. What is proved with it is a
    property of the formulas, stated as holding in exact arithmetic; what the
    code does on binary64 is proved with the instance [Host.value_number]. *)

Module Exact.

Definition Rtruediv (x y : R) : result R :=
  if Req_dec_T y 0 then Raise ZeroDivisionError else Ok (x / y)%R.

#[global] Instance R_number : Number R := {|
  sub x y := Ok (x - y)%R;
  add x y := Ok (x + y)%R;
  mul x y := Ok (x * y)%R;
  truediv := Rtruediv;
  lit_180 := 180%R;
  lit_1 := 1%R;
  lit_1737_4 := 1737.4%R;
  np_pi := PI
|}.

End Exact.

(** ** The host's numbers: Python floats and NumPy arrays over binary64

    A Python [float] is an IEEE binary64 value; [/] on two floats raises
    [ZeroDivisionError] when the divisor compares equal to zero. As soon as
    an operand is an [ndarray] the operation is NumPy's: element-wise, with
    broadcasting of a scalar or of a one-element array, and IEEE division
    (a zero divisor gives an infinity or a NaN, no exception). *)

Module Host.

Inductive value : Type :=
  | PyFloat (f : float)
  | NdArray (a : list float).

Definition broadcast (op : float -> float -> float)
    (a b : list float) : result (list float) :=
  match a, b with
  | [x], _ => Ok (map (op x) b)
  | _, [y] => Ok (map (fun x => op x y) a)
  | _, _ =>
      if Nat.eqb (length a) (length b) then Ok (zip_with op a b)
      else Raise ValueError
  end.

Definition elementwise (op : float -> float -> float)
    (x y : value) : result value :=
  match x, y with
  | PyFloat a, PyFloat b => Ok (PyFloat (op a b))
  | PyFloat a, NdArray b => Ok (NdArray (map (op a) b))
  | NdArray a, PyFloat b => Ok (NdArray (map (fun u => op u b) a))
  | NdArray a, NdArray b => rmap NdArray (broadcast op a b)
  end.

Definition value_truediv (x y : value) : result value :=
  match x, y with
  | PyFloat a, PyFloat b =>
      if PrimFloat.is_zero b then Raise ZeroDivisionError
      else Ok (PyFloat (a / b))
  | _, _ => elementwise PrimFloat.div x y
  end.

(** [np.pi] is the binary64 value nearest to pi, [1737.4] the one nearest to
    the decimal literal. *)
Definition float_pi : float := 0x1.921fb54442d18p+1%float.
Definition float_1737_4 : float := 0x1.b25999999999ap+10%float.

#[global] Instance value_number : Number value := {|
  sub := elementwise PrimFloat.sub;
  add := elementwise PrimFloat.add;
  mul := elementwise PrimFloat.mul;
  truediv := value_truediv;
  lit_180 := PyFloat 180%float;
  lit_1 := PyFloat 1%float;
  lit_1737_4 := PyFloat float_1737_4;
  np_pi := PyFloat float_pi
|}.

(** The result of a division that met a zero divisor under IEEE rules. *)
Definition inf_or_nan (f : float) : bool :=
  PrimFloat.is_infinity f || PrimFloat.is_nan f.

End Host.

(** ** deepmoon/learning/moondata.py *)

Module MoonData.

(** A [pathlib.Path] as the list of its components; [p / s] appends one. *)
Abbreviation path := (list string).

Definition joinpath (p : path) (s : string) : path := p ++ [s].
Declare Scope path_scope.
Delimit Scope path_scope with path.
Infix "/" := joinpath : path_scope.

(** The files the constructor looks at: a finite map from paths to regular
    files (with their text) and directories, and the interpreter's
    [__debug__] flag, which decides whether [assert] statements run. *)
Inductive node : Type :=
  | File (text : string)
  | Directory.

Record world : Type := {
  fs : gmap path node;
  py_debug : bool
}.

Definition is_file (w : world) (p : path) : bool :=
  match fs w !! p with
  | Some (File _) => true
  | _ => false
  end.

(** [open(p, "r")] followed by reading the whole file. *)
Definition open_read (w : world) (p : path) : result string :=
  match fs w !! p with
  | Some (File text) => Ok text
  | Some Directory => Raise IsADirectoryError
  | None => Raise FileNotFoundError
  end.

Definition py_assert (w : world) (cond : bool) : result unit :=
  if py_debug w && negb cond then Raise AssertionError else Ok tt.

(** What [json.load] returns. An object is given by its items in the order
    of the text; a later duplicate of a key overrides the value of an
    earlier one and keeps its place. *)
#[local] Unset Elimination Schemes.
Inductive json : Type :=
  | JNull
  | JBool (b : bool)
  | JInt (n : Z)
  | JFloat (f : float)
  | JStr (s : string)
  | JArr (l : list json)
  | JObj (items : list (string * json)).
#[local] Set Elimination Schemes.

Fixpoint dict_get (k : string) (items : list (string * json)) : option json :=
  match items with
  | [] => None
  | (k', v) :: rest =>
      match dict_get k rest with
      | Some v' => Some v'
      | None => if String.eqb k k' then Some v else None
      end
  end.

(** The keys of an object, each once, in the order of first appearance. *)
Definition dict_keys (items : list (string * json)) : list string :=
  reverse (remove_dups (reverse (map fst items))).

(** [list(v)]: the elements of an array, the keys of an object, the
    characters of a string; other values are not iterable. *)
Definition py_list (v : json) : result (list json) :=
  match v with
  | JArr l => Ok l
  | JObj items => Ok (map JStr (dict_keys items))
  | JStr s => Ok (map (fun c => JStr (String c EmptyString)) (list_ascii_of_string s))
  | _ => Raise TypeError
  end.

(** [v[k]] for a string key [k]. *)
Definition getitem_key (v : json) (k : string) : result json :=
  match v with
  | JObj items =>
      match dict_get k items with
      | Some x => Ok x
      | None => Raise KeyError
      end
  | _ => Raise TypeError
  end.

(** [int(f)] on a float: truncation towards zero. *)
Definition int_of_float (f : float) : result Z :=
  match Prim2SF f with
  | S754_zero _ => Ok 0%Z
  | S754_infinity _ => Raise OverflowError
  | S754_nan => Raise ValueError
  | S754_finite s m e =>
      let magnitude := Z.shiftl (Zpos m) e in
      Ok (if s then (- magnitude)%Z else magnitude)
  end.

(** A loop [for a in l: s = body(s, a)] whose body can raise. *)
Fixpoint for_each {A S : Type} (body : S -> A -> result S)
    (s : S) (l : list A) : result S :=
  match l with
  | [] => Ok s
  | a :: rest => s' ← body s a; for_each body s' rest
  end.

Section MoonCrater.
(** Host functions the constructor calls: [Path(...)] on a string, the
    JSON parser on the text of a file, and [int(...)] on a string; and the
    type of decoded images. *)
Variable image : Type.
Variable Path : string -> path.
Variable json_load : string -> result json.
Variable int_of_str : string -> result Z.

Definition py_int (v : json) : result Z :=
  match v with
  | JInt n => Ok n
  | JBool b => Ok (if b then 1%Z else 0%Z)
  | JFloat f => int_of_float f
  | JStr s => int_of_str s
  | _ => Raise TypeError
  end.

Record MoonCrater : Type := {
  transform : option (image -> image);
  img_size : Z * Z;
  files : list (path * path)
}.

Definition image_size_default : Z := 256.

(** [int(element["name"])] *)
Definition index_of (element : json) : result Z :=
  name ← getitem_key element "name"; py_int name.

(** The pair of paths the loop builds for one index. *)
Definition pair_of (root : path) (index : Z) : path * path :=
  ((root / (pretty index ++ ".png"))%path,
   (root / "mask" / (pretty index ++ ".png"))%path).

Definition both_exist (w : world) (p : path * path) : bool :=
  is_file w p.1 && is_file w p.2.

(** The body of [for element in info]. *)
Definition add_element (w : world) (root : path)
    (files : gset (path * path)) (element : json)
    : result (gset (path * path)) :=
  index ← index_of element;
  let image := (root / (pretty index ++ ".png"))%path in
  let mask := (root / "mask" / (pretty index ++ ".png"))%path in
  if is_file w image && is_file w mask then
    Ok (files ∪ {[ (image, mask) ]})
  else Ok files.

(** [MoonCrater.__init__] *)
Definition MoonCrater_init (w : world) (root : string)
    (transform : option (image -> image)) (image_size : Z)
    : result MoonCrater :=
  let root := Path root in
  let img_size := (image_size, image_size) in
  let data_file := (root / "data_rec.json")%path in
  _ ← py_assert w (is_file w data_file);
  text ← open_read w data_file;
  doc ← json_load text;
  info ← py_list doc;
  files ← for_each (add_element w root) ∅ info;
  Ok {| transform := transform; img_size := img_size;
        files := elements files |}.

(** [MoonCrater.__len__] *)
Definition MoonCrater_len (self : MoonCrater) : nat := length (files self).

(** The indices of all records, in order; raises where the loop would. *)
Fixpoint indices (info : list json) : result (list Z) :=
  match info with
  | [] => Ok []
  | element :: rest =>
      i ← index_of element; others ← indices rest; Ok (i :: others)
  end.

(** The pairs the constructor retains, as a set. *)
Definition retained (w : world) (root : path) (idx : list Z)
    : gset (path * path) :=
  list_to_set (filter (fun p => both_exist w p = true) (pair_of root <$> idx)).

End MoonCrater.

Arguments transform {image} _.
Arguments img_size {image} _.
Arguments files {image} _.
Arguments MoonCrater_len {image} self.

End MoonData.

(** ** A small file tree to run the constructor on *)

Module Demo.
Import MoonData.

Definition demo_Path (root : string) : path := [root].

(** The manifest lists the names 1, 2, 3 and, as a string, 1 again. *)
Definition demo_records : json :=
  JArr [JObj [("name", JInt 1)]; JObj [("name", JInt 2)];
        JObj [("name", JInt 3)]; JObj [("name", JStr "1")]].

Definition demo_json_load (text : string) : result json :=
  if String.eqb text "records 1 2 3 1" then Ok demo_records
  else Raise JSONDecodeError.

Definition demo_int_of_str (s : string) : result Z :=
  if String.eqb s "1" then Ok 1%Z else Raise ValueError.

(** Record 1 has both files, record 2 lacks its mask, record 3 its image. *)
Definition demo_world : world := {|
  fs := list_to_map
          [ (["moon"; "data_rec.json"], File "records 1 2 3 1");
            (["moon"; "mask"], Directory);
            (["moon"; "1.png"], File "image 1");
            (["moon"; "mask"; "1.png"], File "mask 1");
            (["moon"; "2.png"], File "image 2");
            (["moon"; "mask"; "3.png"], File "mask 3") ];
  py_debug := true
|}.

(** The same tree without the manifest. *)
Definition demo_world_no_manifest : world := {|
  fs := delete ["moon"; "data_rec.json"] (fs demo_world);
  py_debug := true
|}.

Definition demo_init (w : world) : result (MoonCrater unit) :=
  MoonCrater_init unit demo_Path demo_json_load demo_int_of_str
    w "moon" None image_size_default.

End Demo.

(** ** deepmoon/learning/moondata.py: indexed access *)

Module MoonItem.
Import MoonData.

(** The index [__getitem__] receives: a Python [int], or an integer tensor,
    which [tolist()] turns into an [int] when it has no dimension and into a
    list otherwise. *)
Inductive tensor : Type :=
  | Scalar (i : Z)
  | Vector (l : list Z).

Inductive index_arg : Type :=
  | Int (i : Z)
  | Tensor (t : tensor).

Inductive index_value : Type :=
  | AsInt (i : Z)
  | AsList (l : list Z).

Definition tolist (t : tensor) : index_value :=
  match t with
  | Scalar i => AsInt i
  | Vector l => AsList l
  end.

(** [t[i]] on a tuple: a negative index counts from the end. *)
Definition tuple_getitem {A : Type} (t : list A) (i : Z) : result A :=
  let n := Z.of_nat (length t) in
  let j := if (i <? 0)%Z then (i + n)%Z else i in
  if (j <? 0)%Z || (n <=? j)%Z then Raise IndexError
  else getitem t (Z.to_nat j).

(** [t[v]]: a list is not an index. *)
Definition tuple_index {A : Type} (t : list A) (v : index_value) : result A :=
  match v with
  | AsInt i => tuple_getitem t i
  | AsList _ => Raise TypeError
  end.

Section GetItem.
(** [Image.open] reads the file at the path and decodes it; the decoder is
    the host's. *)
Variable image : Type.
Variable decode : string -> result image.

Definition Image_open (w : world) (p : path) : result image :=
  text ← open_read w p; decode text.

(** [MoonCrater.__getitem__], in the file tree [w] of the time of the call. *)
Definition MoonCrater_getitem (w : world) (self : MoonCrater image)
    (index : index_arg) : result (image * image) :=
  let index :=
    match index with
    | Tensor t => tolist t
    | Int i => AsInt i
    end in
  data ← tuple_index (files self) index;
  image ← Image_open w data.1;
  mask ← Image_open w data.2;
  match transform self with
  | Some f => Ok (f image, f mask)
  | None => Ok (image, mask)
  end.

End GetItem.

Arguments Image_open {image} decode w p.
Arguments MoonCrater_getitem {image} decode w self index.

End MoonItem.

(** ** The formulas of the transforms in binary64 arithmetic *)

Module HostFormulas.
Local Open Scope float_scope.

(** One pixel of one coordinate and one coordinate of one pixel, with the
    operations and in the order of the source. *)
Definition xpix (x_min x_max width cx : float) : float :=
  width * (cx - x_min) / (x_max - x_min).

Definition ypix (y_min y_max height : float) (origin : string)
    (cy : float) : float :=
  if String.eqb origin "lower"
  then height * (cy - y_min) / (y_max - y_min)
  else height * (y_max - cy) / (y_max - y_min).

Definition xcoord (x_min x_max width x : float) : float :=
  x / width * (x_max - x_min) + x_min.

Definition ycoord (y_min y_max height : float) (origin : string)
    (y : float) : float :=
  if String.eqb origin "lower"
  then y / height * (y_max - y_min) + y_min
  else y_max - y / height * (y_max - y_min).

End HostFormulas.

(** ** A dataset to index *)

Module DemoItem.
Import MoonData MoonItem Demo.

(** Images are kept as the text of their files. *)
Definition demo_decode (text : string) : result string := Ok text.

(** A dataset of two pairs; in [demo_world] the image of the second one does
    not exist. *)
Definition demo_dataset : MoonCrater string := {|
  transform := None;
  img_size := (256%Z, 256%Z);
  files := [ (["moon"; "1.png"], ["moon"; "mask"; "1.png"]);
             (["moon"; "3.png"], ["moon"; "mask"; "3.png"]) ]
|}.

(** Manifests of other shapes: the records in another order, a record whose
    name is no number, a record without a name, no record at all, and an
    object instead of an array. *)
Definition demo_records_reordered : json :=
  JArr [JObj [("name", JInt 2)]; JObj [("name", JInt 1)];
        JObj [("name", JInt 3)]; JObj [("name", JStr "1")]].

Definition demo_records_unreadable : json :=
  JArr [JObj [("name", JInt 1)]; JObj [("name", JStr "one")];
        JObj [("name", JInt 3)]].

Definition demo_records_nameless : json :=
  JArr [JObj [("name", JInt 1)]; JObj [("id", JInt 2)];
        JObj [("name", JInt 3)]].

Definition demo_parse (text : string) : result json :=
  if String.eqb text "records 1 2 3 1" then Ok demo_records
  else if String.eqb text "records 2 1 3 1" then Ok demo_records_reordered
  else if String.eqb text "records 1 one 3" then Ok demo_records_unreadable
  else if String.eqb text "records 1 ? 3" then Ok demo_records_nameless
  else if String.eqb text "no records" then Ok (JArr [])
  else if String.eqb text "an object" then Ok (JObj [("name", JInt 1)])
  else Raise JSONDecodeError.

(** The demonstration tree with another text in its manifest. *)
Definition demo_world_with (text : string) : world := {|
  fs := <[ ["moon"; "data_rec.json"] := File text ]> (fs demo_world);
  py_debug := true
|}.

Definition demo_build (w : world) : result (MoonCrater string) :=
  MoonCrater_init string demo_Path demo_parse demo_int_of_str
    w "moon" None image_size_default.

End DemoItem.

(** * Properties *)

(** ** The origin argument, for every kind of number *)

Module OriginFacts.
Import Transformation.
Section Generic.
Context {T : Type} `{Number T}.
Variables (a b : T) (coord_lim imgdim : list T) (origin : string).

Lemma coord2pix_not_lower :
  origin <> "lower" ->
  coord2pix a b coord_lim imgdim origin = coord2pix a b coord_lim imgdim "upper".
Proof.
  intros Hne. unfold coord2pix.
  apply String.eqb_neq in Hne. now rewrite Hne.
Qed.

Lemma pix2coord_not_lower :
  origin <> "lower" ->
  pix2coord a b coord_lim imgdim origin = pix2coord a b coord_lim imgdim "upper".
Proof.
  intros Hne. unfold pix2coord.
  apply String.eqb_neq in Hne. now rewrite Hne.
Qed.
End Generic.

(** An unrecognised origin gives the upper-origin pixel, "lower" the other
    one. *)
Example coord2pix_bottom :
  coord2pix (Host.PyFloat 0) (Host.PyFloat 45)
    [Host.PyFloat (-180); Host.PyFloat 180; Host.PyFloat (-90); Host.PyFloat 90]
    [Host.PyFloat 512; Host.PyFloat 256] "bottom"
  = Ok (Host.PyFloat 256, Host.PyFloat 64).
Proof. reflexivity. Qed.

Example coord2pix_lower_origin :
  coord2pix (Host.PyFloat 0) (Host.PyFloat 45)
    [Host.PyFloat (-180); Host.PyFloat 180; Host.PyFloat (-90); Host.PyFloat 90]
    [Host.PyFloat 512; Host.PyFloat 256] "lower"
  = Ok (Host.PyFloat 256, Host.PyFloat 192).
Proof. reflexivity. Qed.

End OriginFacts.

(** ** The transforms in exact arithmetic *)

Module ExactFacts.
Import Transformation Exact OriginFacts.
Local Open Scope R_scope.

Lemma Rtruediv_ok (x y : R) : y <> 0 -> Rtruediv x y = Ok (x / y).
Proof.
  intros Hy. unfold Rtruediv.
  destruct (Req_dec_T y 0); [contradiction | reflexivity].
Qed.

Lemma Rtruediv_zero (x : R) : Rtruediv x 0 = Raise ZeroDivisionError.
Proof.
  unfold Rtruediv.
  destruct (Req_dec_T 0 0); [reflexivity | contradiction].
Qed.

(** Unfold one of the transforms on explicit limits and dimensions, and
    discharge every division whose divisor is provably non-zero. *)
Ltac run_exact :=
  unfold coord2pix, pix2coord, km2pix, rmap; cbn;
  repeat (match goal with
          | |- context [Rtruediv ?x ?y] =>
              first [ rewrite (Rtruediv_ok x y) by (apply PI_neq0 || lra)
                    | rewrite (Rtruediv_zero x) ]
          end; cbn).

Section Transforms.
Variables cx cy x_min x_max y_min y_max width height : R.
Let coord_lim := [x_min; x_max; y_min; y_max].
Let imgdim := [width; height].

Lemma coord2pix_lower :
  x_min <> x_max -> y_min <> y_max ->
  coord2pix cx cy coord_lim imgdim "lower"
  = Ok (width * (cx - x_min) / (x_max - x_min),
        height * (cy - y_min) / (y_max - y_min)).
Proof. intros Hx Hy. subst coord_lim imgdim. now run_exact. Qed.

Lemma coord2pix_upper :
  x_min <> x_max -> y_min <> y_max ->
  coord2pix cx cy coord_lim imgdim "upper"
  = Ok (width * (cx - x_min) / (x_max - x_min),
        height * (y_max - cy) / (y_max - y_min)).
Proof. intros Hx Hy. subst coord_lim imgdim. now run_exact. Qed.

Lemma pix2coord_lower (x y : R) :
  width <> 0 -> height <> 0 ->
  pix2coord x y coord_lim imgdim "lower"
  = Ok (x / width * (x_max - x_min) + x_min,
        y / height * (y_max - y_min) + y_min).
Proof. intros Hw Hh. subst coord_lim imgdim. now run_exact. Qed.

Lemma pix2coord_upper (x y : R) :
  width <> 0 -> height <> 0 ->
  pix2coord x y coord_lim imgdim "upper"
  = Ok (x / width * (x_max - x_min) + x_min,
        y_max - y / height * (y_max - y_min)).
Proof. intros Hw Hh. subst coord_lim imgdim. now run_exact. Qed.
End Transforms.

Lemma km2pix_value (imgheight latextent dc a : R) :
  latextent <> 0 -> a <> 0 ->
  km2pix imgheight latextent dc a
  = Ok (180 / PI * imgheight * dc / latextent / a).
Proof. intros He Ha. now run_exact. Qed.

(** C2. On non-degenerate limits [coord2pix] returns the affine formula:
    x is [width * (cx - x_min) / (x_max - x_min)]; y is
    [height * (cy - y_min) / (y_max - y_min)] for origin "lower" and
    [height * (y_max - cy) / (y_max - y_min)] for origin "upper", which is
    the default. *)
Theorem coord2pix_formula (cx cy x_min x_max y_min y_max width height : R) :
  x_min <> x_max -> y_min <> y_max ->
  coord2pix cx cy [x_min; x_max; y_min; y_max] [width; height] "lower"
    = Ok (width * (cx - x_min) / (x_max - x_min),
          height * (cy - y_min) / (y_max - y_min))
  /\ coord2pix cx cy [x_min; x_max; y_min; y_max] [width; height] "upper"
    = Ok (width * (cx - x_min) / (x_max - x_min),
          height * (y_max - cy) / (y_max - y_min))
  /\ origin_default = "upper".
Proof.
  intros Hx Hy. split; [| split].
  - now apply coord2pix_lower.
  - now apply coord2pix_upper.
  - reflexivity.
Qed.

Lemma coord2pix_formula_witness :
  coord2pix 0 0 [-180; 180; -90; 90] [512; 256] "upper"
  = Ok (512 * (0 - -180) / (180 - -180), 256 * (90 - 0) / (90 - -90)).
Proof.
  apply (coord2pix_formula 0 0 (-180) 180 (-90) 90 512 256); lra.
Defined.



(** C6, as amended. In exact arithmetic, for the same coordinates,
    non-degenerate limits and dimensions, both origins return, and the y
    pixel for "upper" plus the y pixel for "lower" is the image height. *)
Theorem coord2pix_origin_symmetry
    (cx cy x_min x_max y_min y_max width height : R) :
  x_min <> x_max -> y_min <> y_max ->
  exists xu yu xl yl,
    coord2pix cx cy [x_min; x_max; y_min; y_max] [width; height] "upper"
      = Ok (xu, yu)
    /\ coord2pix cx cy [x_min; x_max; y_min; y_max] [width; height] "lower"
      = Ok (xl, yl)
    /\ yu + yl = height.
Proof.
  intros Hx Hy.
  rewrite coord2pix_upper, coord2pix_lower by assumption.
  do 4 eexists. split; [reflexivity | split; [reflexivity |]].
  field; lra.
Qed.

Lemma coord2pix_origin_symmetry_witness :
  exists xu yu xl yl,
    coord2pix 10 20 [-180; 180; -90; 90] [512; 256] "upper" = Ok (xu, yu)
    /\ coord2pix 10 20 [-180; 180; -90; 90] [512; 256] "lower" = Ok (xl, yl)
    /\ yu + yl = 256.
Proof.
  apply (coord2pix_origin_symmetry 10 20 (-180) 180 (-90) 90 512 256); lra.
Defined.

(** C1. Round trip: on non-degenerate limits and dimensions with positive
    width and height, [coord2pix] returns a pixel and [pix2coord] applied to
    it, with the same limits, dimensions and origin, returns exactly the
    coordinates one started from, in exact arithmetic. This holds for every
    origin string, in particular for "upper" and for "lower". *)
Theorem pix2coord_coord2pix_roundtrip
    (cx cy x_min x_max y_min y_max width height : R) (origin : string) :
  x_min <> x_max -> y_min <> y_max -> 0 < width -> 0 < height ->
  ('(x, y) ← coord2pix cx cy [x_min; x_max; y_min; y_max] [width; height] origin;
   pix2coord x y [x_min; x_max; y_min; y_max] [width; height] origin)
  = Ok (cx, cy).
Proof.
  intros Hx Hy Hw Hh.
  destruct (String.eqb_spec origin "lower") as [-> | Hne].
  - rewrite coord2pix_lower by assumption. cbn.
    rewrite pix2coord_lower by lra.
    do 2 f_equal; field; lra.
  - rewrite coord2pix_not_lower, coord2pix_upper by assumption. cbn.
    rewrite pix2coord_not_lower, pix2coord_upper by (assumption || lra).
    do 2 f_equal; field; lra.
Qed.

Lemma pix2coord_coord2pix_roundtrip_witness :
  ('(x, y) ← coord2pix 10 20 [-180; 180; -90; 90] [512; 256] "upper";
   pix2coord x y [-180; 180; -90; 90] [512; 256] "upper") = Ok (10, 20)
  /\ ('(x, y) ← coord2pix 10 20 [-180; 180; -90; 90] [512; 256] "lower";
      pix2coord x y [-180; 180; -90; 90] [512; 256] "lower") = Ok (10, 20).
Proof.
  split;
    apply (pix2coord_coord2pix_roundtrip 10 20 (-180) 180 (-90) 90 512 256);
    lra.
Defined.

(** C3. [km2pix] returns exactly
    [(180 / pi) * imgheight * dc / latextent / a] whenever [latextent] and
    [a] are non-zero (so in particular for positive [imgheight] and non-zero
    [dc]); the defaults are [dc = 1.0] and [a = 1737.4]. *)
Theorem km2pix_formula (imgheight latextent dc a : R) :
  latextent <> 0 -> a <> 0 ->
  km2pix imgheight latextent dc a
    = Ok (180 / PI * imgheight * dc / latextent / a)
  /\ km2pix_dc_default = 1
  /\ km2pix_a_default = 1737.4.
Proof.
  intros He Ha. split; [now apply km2pix_value | split; reflexivity].
Qed.

Lemma km2pix_formula_witness :
  km2pix 256 180 km2pix_dc_default km2pix_a_default
  = Ok (180 / PI * 256 * 1 / 180 / 1737.4).
Proof.
  apply (km2pix_formula 256 180 1 1737.4); lra.
Defined.



End ExactFacts.

(** ** Zero-width ranges on the host's numbers *)

Module HostFacts.
Import Transformation Host.
Local Open Scope float_scope.

(** IEEE division by a zero gives an infinity or a NaN. *)
Lemma div_zero_inf_or_nan (x z : float) :
  PrimFloat.is_zero z = true -> inf_or_nan (x / z) = true.
Proof.
  unfold PrimFloat.is_zero, inf_or_nan, PrimFloat.is_infinity, PrimFloat.is_nan.
  rewrite !FloatAxioms.eqb_spec, abs_spec, div_spec.
  change (Prim2SF zero) with (S754_zero false).
  change (Prim2SF infinity) with (S754_infinity false).
  destruct (Prim2SF z) as [sz | sz | | sz mz ez]; cbn.
  - intros _. now destruct (Prim2SF x) as [sx | sx | | sx mx ex].
  - now destruct sz.
  - discriminate.
  - now destruct sz.
Qed.

Lemma Forall_div_zero (z : float) (l : list float) :
  PrimFloat.is_zero z = true ->
  Forall (fun v => inf_or_nan v = true) (map (fun u => u / z) l).
Proof.
  intros Hz. apply Forall_map, Forall_forall.
  intros u _. now apply div_zero_inf_or_nan.
Qed.

Section Transforms.
Variables cx cy x_min x_max y_min y_max width height : float.
Variable origin : string.
Let coord_lim := [PyFloat x_min; PyFloat x_max; PyFloat y_min; PyFloat y_max].
Let imgdim := [PyFloat width; PyFloat height].

(** Python floats: the x pixel is computed first, so a zero width raises
    whatever the y range is. *)
Lemma coord2pix_float_zero_width :
  PrimFloat.is_zero (x_max - x_min) = true ->
  coord2pix (PyFloat cx) (PyFloat cy) coord_lim imgdim origin
  = Raise ZeroDivisionError.
Proof.
  intros Hx. subst coord_lim imgdim. unfold coord2pix, PrimFloat.is_zero in *.
  cbn. now rewrite Hx.
Qed.

Lemma coord2pix_float_zero_height :
  PrimFloat.is_zero (y_max - y_min) = true ->
  coord2pix (PyFloat cx) (PyFloat cy) coord_lim imgdim origin
  = Raise ZeroDivisionError.
Proof.
  intros Hy. subst coord_lim imgdim. unfold coord2pix, PrimFloat.is_zero in *.
  cbn. destruct (x_max - x_min =? zero); [reflexivity |].
  cbn. destruct (String.eqb origin "lower"); cbn; now rewrite Hy.
Qed.

(** [pix2coord] divides by the image dimensions only. *)
Lemma pix2coord_float_returns (x y : float) :
  PrimFloat.is_zero width = false -> PrimFloat.is_zero height = false ->
  exists u v,
    pix2coord (PyFloat x) (PyFloat y) coord_lim imgdim origin
    = Ok (PyFloat u, PyFloat v).
Proof.
  intros Hw Hh. subst coord_lim imgdim. unfold pix2coord, PrimFloat.is_zero in *.
  cbn. rewrite Hw. cbn.
  destruct (String.eqb origin "lower"); cbn; rewrite Hh; cbn; eauto.
Qed.

(** NumPy arrays of coordinates against scalar limits: the division is
    element-wise and never raises. *)
Lemma coord2pix_array (cxs cys : list float) :
  exists xs ys,
    coord2pix (NdArray cxs) (NdArray cys) coord_lim imgdim origin
    = Ok (NdArray xs, NdArray ys)
    /\ length xs = length cxs /\ length ys = length cys
    /\ (PrimFloat.is_zero (x_max - x_min) = true ->
        Forall (fun v => inf_or_nan v = true) xs)
    /\ (PrimFloat.is_zero (y_max - y_min) = true ->
        Forall (fun v => inf_or_nan v = true) ys).
Proof.
  subst coord_lim imgdim. unfold coord2pix. cbn.
  destruct (String.eqb origin "lower"); cbn;
    do 2 eexists; (split; [reflexivity |]);
    rewrite !length_map;
    (split; [reflexivity | split; [reflexivity |]]);
    split; intros Hz; now apply Forall_div_zero.
Qed.
End Transforms.

Lemma km2pix_float_zero_extent (imgheight latextent dc a : float) :
  PrimFloat.is_zero latextent = true ->
  km2pix (PyFloat imgheight) (PyFloat latextent) (PyFloat dc) (PyFloat a)
  = Raise ZeroDivisionError.
Proof.
  intros He. unfold km2pix, PrimFloat.is_zero in *. cbn.
  change (float_pi =? zero) with false. cbn.
  now rewrite He.
Qed.


(** C4, as the code has it. On a zero-width range nothing is guarded or
    recovered, and the outcome is the host's: with Python floats
    [coord2pix] raises [ZeroDivisionError] when the computed width
    [x_max - x_min] or height [y_max - y_min] is zero, and so does [km2pix]
    when [latextent] is zero; [pix2coord] never divides by the range and
    returns whenever the image dimensions are non-zero; with NumPy arrays of
    coordinates [coord2pix] returns, and the pixels computed over a zero
    range are all infinities or NaNs. *)
Theorem degenerate_range_outcome :
  (forall cx cy x_min x_max y_min y_max width height origin,
      PrimFloat.is_zero (x_max - x_min) = true
      \/ PrimFloat.is_zero (y_max - y_min) = true ->
      coord2pix (PyFloat cx) (PyFloat cy)
        [PyFloat x_min; PyFloat x_max; PyFloat y_min; PyFloat y_max]
        [PyFloat width; PyFloat height] origin
      = Raise ZeroDivisionError)
  /\ (forall imgheight latextent dc a,
      PrimFloat.is_zero latextent = true ->
      km2pix (PyFloat imgheight) (PyFloat latextent) (PyFloat dc) (PyFloat a)
      = Raise ZeroDivisionError)
  /\ (forall x y x_min x_max y_min y_max width height origin,
      PrimFloat.is_zero width = false -> PrimFloat.is_zero height = false ->
      exists u v,
        pix2coord (PyFloat x) (PyFloat y)
          [PyFloat x_min; PyFloat x_max; PyFloat y_min; PyFloat y_max]
          [PyFloat width; PyFloat height] origin
        = Ok (PyFloat u, PyFloat v))
  /\ (forall cxs cys x_min x_max y_min y_max width height origin,
      exists xs ys,
        coord2pix (NdArray cxs) (NdArray cys)
          [PyFloat x_min; PyFloat x_max; PyFloat y_min; PyFloat y_max]
          [PyFloat width; PyFloat height] origin
        = Ok (NdArray xs, NdArray ys)
        /\ length xs = length cxs /\ length ys = length cys
        /\ (PrimFloat.is_zero (x_max - x_min) = true ->
            Forall (fun v => inf_or_nan v = true) xs)
        /\ (PrimFloat.is_zero (y_max - y_min) = true ->
            Forall (fun v => inf_or_nan v = true) ys)).
Proof.
  repeat split.
  - intros cx cy x_min x_max y_min y_max width height origin [Hx | Hy].
    + now apply coord2pix_float_zero_width.
    + now apply coord2pix_float_zero_height.
  - intros. now apply km2pix_float_zero_extent.
  - intros. now apply pix2coord_float_returns.
  - intros. apply coord2pix_array.
Qed.

Lemma degenerate_range_outcome_witness :
  coord2pix (PyFloat 0) (PyFloat 0)
    [PyFloat 1; PyFloat 1; PyFloat 0; PyFloat 1] [PyFloat 512; PyFloat 256]
    "upper" = Raise ZeroDivisionError
  /\ km2pix (PyFloat 256) (PyFloat 0) (PyFloat 1) (PyFloat float_1737_4)
     = Raise ZeroDivisionError
  /\ exists u v,
       pix2coord (PyFloat 3) (PyFloat 4)
         [PyFloat 1; PyFloat 1; PyFloat 0; PyFloat 1]
         [PyFloat 512; PyFloat 256] "upper" = Ok (PyFloat u, PyFloat v).
Proof.
  destruct degenerate_range_outcome as (Hc & Hk & Hp & _).
  split; [| split].
  - apply Hc. left. reflexivity.
  - apply Hk. reflexivity.
  - apply Hp; reflexivity.
Defined.

(** C4 as stated fails: with Python floats and the limits (1, 1, 0, 1)
    [coord2pix] raises [ZeroDivisionError] instead of returning an infinity
    or a NaN, and so does [km2pix] with a latitude extent of 0. *)
Lemma degenerate_range_counterexample :
  coord2pix (PyFloat 0) (PyFloat 0)
    [PyFloat 1; PyFloat 1; PyFloat 0; PyFloat 1] [PyFloat 512; PyFloat 256]
    origin_default = Raise ZeroDivisionError
  /\ km2pix (PyFloat 256) (PyFloat 0) km2pix_dc_default km2pix_a_default
     = Raise ZeroDivisionError.
Proof. split; reflexivity. Qed.

(** The same limits with arrays of coordinates: the x pixels are an
    infinity and a NaN, and nothing is raised. *)
Example coord2pix_array_zero_width :
  coord2pix (NdArray [0; 1]) (NdArray [0; 1])
    [PyFloat 1; PyFloat 1; PyFloat 0; PyFloat 1] [PyFloat 512; PyFloat 256]
    "upper"
  = Ok (NdArray [neg_infinity; nan], NdArray [256; 0]).
Proof. reflexivity. Qed.

(** The documented example, on Python floats. *)
Example coord2pix_world_map :
  coord2pix (PyFloat 0) (PyFloat 0)
    [PyFloat (-180); PyFloat 180; PyFloat (-90); PyFloat 90]
    [PyFloat 512; PyFloat 256] "upper"
  = Ok (PyFloat 256, PyFloat 128).
Proof. reflexivity. Qed.

(** On Python floats the round trip is the identity only up to rounding:
    from the float nearest to 0.1 in both coordinates one comes back a few
    units in the last places below it. *)
Example roundtrip_on_floats :
  ('(x, y) ← coord2pix (PyFloat 0x1.999999999999ap-4) (PyFloat 0x1.999999999999ap-4)
               [PyFloat (-180); PyFloat 180; PyFloat (-90); PyFloat 90]
               [PyFloat 512; PyFloat 256] "upper";
   pix2coord x y
     [PyFloat (-180); PyFloat 180; PyFloat (-90); PyFloat 90]
     [PyFloat 512; PyFloat 256] "upper")
  = Ok (PyFloat 0x1.9999999999p-4, PyFloat 0x1.99999999998p-4).
Proof. reflexivity. Qed.

End HostFacts.

(** ** The dataset adapter *)

Module MoonDataFacts.
Import MoonData.

Lemma list_ascii_of_string_app (s t : string) :
  list_ascii_of_string (s ++ t)
  = (list_ascii_of_string s ++ list_ascii_of_string t)%list.
Proof. induction s as [| c s IH]; cbn; [reflexivity | now rewrite <- IH]. Qed.

Lemma string_app_inv_tail (s1 s2 t : string) : s1 ++ t = s2 ++ t -> s1 = s2.
Proof.
  intros Heq. apply (f_equal list_ascii_of_string) in Heq.
  rewrite !list_ascii_of_string_app in Heq. apply app_inv_tail in Heq.
  apply (f_equal string_of_list_ascii) in Heq.
  now rewrite !string_of_list_ascii_of_string in Heq.
Qed.

(** Distinct indices give distinct pairs of paths. *)
#[local] Instance pair_of_inj (root : path) : Inj (=) (=) (pair_of root).
Proof.
  intros i j Heq. unfold pair_of, joinpath in Heq.
  injection Heq as Himage _.
  apply app_inv_head in Himage. injection Himage as Hname.
  apply string_app_inv_tail in Hname. now apply (inj pretty) in Hname.
Qed.

Lemma retained_cons (w : world) (root : path) (i : Z) (idx : list Z) :
  retained w root (i :: idx)
  = if both_exist w (pair_of root i)
    then {[ pair_of root i ]} ∪ retained w root idx
    else retained w root idx.
Proof.
  unfold retained. rewrite fmap_cons, filter_cons.
  destruct (both_exist w (pair_of root i)) eqn:Hb.
  - rewrite decide_True by reflexivity. now rewrite list_to_set_cons.
  - rewrite decide_False by discriminate. reflexivity.
Qed.

Lemma elem_of_retained (w : world) (root : path) (idx : list Z) (p : path * path) :
  p ∈ retained w root idx
  <-> exists i, i ∈ idx /\ p = pair_of root i
                /\ is_file w p.1 = true /\ is_file w p.2 = true.
Proof.
  unfold retained, both_exist.
  rewrite elem_of_list_to_set, list_elem_of_filter, list_elem_of_fmap.
  rewrite andb_true_iff. split.
  - intros [[Himg Hmask] (i & -> & Hi)]. exists i. auto.
  - intros (i & Hi & -> & Himg & Hmask). split; [auto | exists i; auto].
Qed.


Example int_of_float_truncates :
  int_of_float 2.5 = Ok 2%Z /\ int_of_float (-2.5) = Ok (-2)%Z
  /\ int_of_float 12 = Ok 12%Z /\ int_of_float nan = Raise ValueError.
Proof. repeat split. Qed.

Example py_list_object :
  py_list (JObj [("name", JInt 1); ("id", JNull); ("name", JInt 2)])
  = Ok [JStr "name"; JStr "id"].
Proof. reflexivity. Qed.

Section MoonCrater.
Context (image : Type) (Path : string -> path).
Context (json_load : string -> result json) (int_of_str : string -> result Z).

Local Abbreviation init := (MoonCrater_init image Path json_load int_of_str).

Lemma add_element_eq (w : world) (root : path)
    (acc : gset (path * path)) (element : json) :
  add_element int_of_str w root acc element
  = (i ← index_of int_of_str element;
     Ok (if both_exist w (pair_of root i)
         then acc ∪ {[ pair_of root i ]} else acc)).
Proof.
  unfold add_element, both_exist, pair_of.
  destruct (index_of int_of_str element) as [i | e]; cbn; [| reflexivity].
  now destruct (is_file w _ && is_file w _).
Qed.

(** The loop adds to the set exactly the retained pairs, and raises where
    the conversion of a name does. *)
Lemma for_each_add_element (w : world) (root : path) (info : list json) :
  forall acc : gset (path * path),
    for_each (add_element int_of_str w root) acc info
    = (idx ← indices int_of_str info; Ok (acc ∪ retained w root idx)).
Proof.
  induction info as [| element rest IH]; intros acc.
  - cbn. f_equal. unfold retained. cbn. now rewrite union_empty_r_L.
  - cbn [for_each indices]. rewrite add_element_eq.
    destruct (index_of int_of_str element) as [i | e];
      cbn [mbind result_bind bind]; [| reflexivity].
    rewrite IH.
    destruct (indices int_of_str rest) as [idx | e];
      cbn [mbind result_bind bind]; [| reflexivity].
    rewrite retained_cons.
    destruct (both_exist w (pair_of root i)); f_equal.
  now rewrite (assoc_L (∪)).
Qed.


Lemma init_no_manifest (w : world) (root : string)
    (transform : option (image -> image)) (image_size : Z) :
  is_file w (Path root / "data_rec.json")%path = false ->
  exists e, init w root transform image_size = Raise e
            /\ (py_debug w = true -> e = AssertionError).
Proof.
  intros Hfile. unfold MoonCrater_init, py_assert. rewrite Hfile.
  destruct (py_debug w); cbn.
  - eauto.
  - unfold is_file in Hfile. unfold open_read.
    destruct (fs w !! _) as [[text |] |]; cbn; try discriminate;
      eexists; (split; [reflexivity | discriminate]).
Qed.


(** C8. When [root/data_rec.json] is not an existing file the constructor
    raises and produces no dataset object: the [assert] fails with
    [AssertionError]; were assertions disabled, opening the file would
    raise instead. *)
Theorem MoonCrater_manifest_fail_fast (w : world) (root : string)
    (transform : option (image -> image)) (image_size : Z) :
  is_file w (Path root / "data_rec.json")%path = false ->
  (exists e, init w root transform image_size = Raise e
             /\ (py_debug w = true -> e = AssertionError))
  /\ (forall self, init w root transform image_size <> Ok self).
Proof.
  intros Hfile.
  destruct (init_no_manifest w root transform image_size Hfile) as (e & He & Hd).
  split; [eauto |]. intros self. rewrite He. discriminate.
Qed.


End MoonCrater.

Import Demo.

Lemma MoonCrater_manifest_fail_fast_witness :
  (exists e, demo_init demo_world_no_manifest = Raise e
             /\ (py_debug demo_world_no_manifest = true -> e = AssertionError))
  /\ (forall self, demo_init demo_world_no_manifest <> Ok self).
Proof.
  apply (MoonCrater_manifest_fail_fast unit demo_Path demo_json_load
           demo_int_of_str demo_world_no_manifest "moon").
  reflexivity.
Defined.


(** On the demonstration tree only record 1 is kept, and once: the records
    2 and 3 miss a file, and the second record named 1 gives the pair that
    is already in the set. *)
Example demo_files :
  files <$> demo_init demo_world
  = Ok [(["moon"; "1.png"], ["moon"; "mask"; "1.png"])].
Proof. reflexivity. Qed.

Example demo_len : MoonCrater_len <$> demo_init demo_world = Ok 1.
Proof. reflexivity. Qed.

Example demo_no_manifest : demo_init demo_world_no_manifest = Raise AssertionError.
Proof. reflexivity. Qed.

End MoonDataFacts.

(** * Further properties of the code *)

(** ** Laws of the transforms in exact arithmetic *)

Module TransformLaws.
Import Transformation Exact ExactFacts.
Local Open Scope R_scope.

Section AnyOrigin.
Variables x_min x_max y_min y_max width height : R.
Variable origin : string.
Let coord_lim := [x_min; x_max; y_min; y_max].
Let imgdim := [width; height].

Lemma coord2pix_any (cx cy : R) :
  x_min <> x_max -> y_min <> y_max ->
  coord2pix cx cy coord_lim imgdim origin
  = Ok (width * (cx - x_min) / (x_max - x_min),
        if String.eqb origin "lower"
        then height * (cy - y_min) / (y_max - y_min)
        else height * (y_max - cy) / (y_max - y_min)).
Proof.
  intros Hx Hy. subst coord_lim imgdim. unfold coord2pix. cbn.
  destruct (String.eqb origin "lower"); now run_exact.
Qed.

Lemma pix2coord_any (x y : R) :
  width <> 0 -> height <> 0 ->
  pix2coord x y coord_lim imgdim origin
  = Ok (x / width * (x_max - x_min) + x_min,
        if String.eqb origin "lower"
        then y / height * (y_max - y_min) + y_min
        else y_max - y / height * (y_max - y_min)).
Proof.
  intros Hw Hh. subst coord_lim imgdim. unfold pix2coord. cbn.
  destruct (String.eqb origin "lower"); now run_exact.
Qed.
End AnyOrigin.

(** X1. The round trip in the other direction: on non-degenerate limits and
    non-zero dimensions, [coord2pix] applied to the result of [pix2coord]
    gives back the pixel, for every origin. *)
Theorem coord2pix_pix2coord_roundtrip
    (x y x_min x_max y_min y_max width height : R) (origin : string) :
  x_min <> x_max -> y_min <> y_max -> width <> 0 -> height <> 0 ->
  ('(cx, cy) ← pix2coord x y [x_min; x_max; y_min; y_max] [width; height] origin;
   coord2pix cx cy [x_min; x_max; y_min; y_max] [width; height] origin)
  = Ok (x, y).
Proof.
  intros Hx Hy Hw Hh.
  rewrite pix2coord_any by assumption. cbn [mbind result_bind bind].
  rewrite coord2pix_any by assumption.
  destruct (String.eqb origin "lower"); do 2 f_equal; field; lra.
Qed.

Lemma coord2pix_pix2coord_roundtrip_witness :
  ('(cx, cy) ← pix2coord 128 64 [-180; 180; -90; 90] [512; 256] "upper";
   coord2pix cx cy [-180; 180; -90; 90] [512; 256] "upper") = Ok (128, 64).
Proof.
  apply (coord2pix_pix2coord_roundtrip 128 64 (-180) 180 (-90) 90 512 256);
    lra.
Defined.

(** X2. [coord2pix] is affine: it maps the point dividing a segment of
    coordinates in the ratio [t : 1 - t] to the pixel dividing the segment of
    their pixels in the same ratio, for every origin. *)
Theorem coord2pix_affine
    (t ax ay bx b_y x_min x_max y_min y_max width height : R)
    (origin : string) :
  x_min <> x_max -> y_min <> y_max ->
  exists pax pay pbx pby,
    coord2pix ax ay [x_min; x_max; y_min; y_max] [width; height] origin
      = Ok (pax, pay)
    /\ coord2pix bx b_y [x_min; x_max; y_min; y_max] [width; height] origin
      = Ok (pbx, pby)
    /\ coord2pix (t * ax + (1 - t) * bx) (t * ay + (1 - t) * b_y)
         [x_min; x_max; y_min; y_max] [width; height] origin
      = Ok (t * pax + (1 - t) * pbx, t * pay + (1 - t) * pby).
Proof.
  intros Hx Hy. rewrite !coord2pix_any by assumption.
  do 4 eexists. split; [reflexivity | split; [reflexivity |]].
  destruct (String.eqb origin "lower"); do 2 f_equal; field; lra.
Qed.

Lemma coord2pix_affine_witness :
  exists pax pay pbx pby,
    coord2pix (-180) 90 [-180; 180; -90; 90] [512; 256] "upper" = Ok (pax, pay)
    /\ coord2pix 180 (-90) [-180; 180; -90; 90] [512; 256] "upper"
       = Ok (pbx, pby)
    /\ coord2pix (/ 2 * -180 + (1 - / 2) * 180) (/ 2 * 90 + (1 - / 2) * -90)
         [-180; 180; -90; 90] [512; 256] "upper"
       = Ok (/ 2 * pax + (1 - / 2) * pbx, / 2 * pay + (1 - / 2) * pby).
Proof.
  apply (coord2pix_affine (/ 2) (-180) 90 180 (-90) (-180) 180 (-90) 90 512 256);
    lra.
Defined.

Lemma scaled_between (k d u : R) :
  0 < k -> 0 < d -> (0 <= k * u / d <= k <-> 0 <= u <= d).
Proof.
  intros Hk Hd.
  assert (Hq : 0 < k / d) by (apply Rdiv_lt_0_compat; lra).
  replace (k * u / d) with (k / d * u) by (field; lra).
  assert (Hkd : k = k / d * d) by (field; lra).
  split; intros [Hlo Hhi]; split; nra.
Qed.

Lemma scaled_lt (k d u v : R) :
  0 < k -> 0 < d -> (k * u / d < k * v / d <-> u < v).
Proof.
  intros Hk Hd.
  assert (Hq : 0 < k / d) by (apply Rdiv_lt_0_compat; lra).
  replace (k * u / d) with (k / d * u) by (field; lra).
  replace (k * v / d) with (k / d * v) by (field; lra).
  split; intros Hlt; nra.
Qed.

(** X3. In exact arithmetic, with ordered limits and positive dimensions a
    coordinate lies within the limits exactly when its pixel lies within the
    image, on each axis and for every origin: the formula clamps nothing.
    (On binary64 rounding can move a pixel across the border of the image by
    one unit in the last place.) *)
Theorem coord2pix_inside_image
    (cx cy x_min x_max y_min y_max width height : R) (origin : string) :
  x_min < x_max -> y_min < y_max -> 0 < width -> 0 < height ->
  exists x y,
    coord2pix cx cy [x_min; x_max; y_min; y_max] [width; height] origin
      = Ok (x, y)
    /\ (0 <= x <= width <-> x_min <= cx <= x_max)
    /\ (0 <= y <= height <-> y_min <= cy <= y_max).
Proof.
  intros Hx Hy Hw Hh. rewrite coord2pix_any by lra.
  do 2 eexists. split; [reflexivity |]. split.
  - rewrite scaled_between by lra. lra.
  - destruct (String.eqb origin "lower"); rewrite scaled_between by lra; lra.
Qed.

Lemma coord2pix_inside_image_witness :
  exists x y,
    coord2pix 200 20 [-180; 180; -90; 90] [512; 256] "upper" = Ok (x, y)
    /\ (0 <= x <= 512 <-> -180 <= 200 <= 180)
    /\ (0 <= y <= 256 <-> -90 <= 20 <= 90).
Proof.
  apply (coord2pix_inside_image 200 20 (-180) 180 (-90) 90 512 256); lra.
Defined.

(** X4. Orientation, in exact arithmetic: with ordered limits and positive
    dimensions the x pixel grows strictly with the x coordinate; the y pixel
    grows strictly with the y coordinate for origin "lower" and falls
    strictly with it for every other origin. (On binary64 two coordinates
    closer than the rounding error can get the same pixel.) *)
Theorem coord2pix_monotone
    (ax ay bx b_y x_min x_max y_min y_max width height : R)
    (origin : string) :
  x_min < x_max -> y_min < y_max -> 0 < width -> 0 < height ->
  exists pax pay pbx pby,
    coord2pix ax ay [x_min; x_max; y_min; y_max] [width; height] origin
      = Ok (pax, pay)
    /\ coord2pix bx b_y [x_min; x_max; y_min; y_max] [width; height] origin
      = Ok (pbx, pby)
    /\ (pax < pbx <-> ax < bx)
    /\ (origin = "lower" -> (pay < pby <-> ay < b_y))
    /\ (origin <> "lower" -> (pby < pay <-> ay < b_y)).
Proof.
  intros Hx Hy Hw Hh. rewrite !coord2pix_any by lra.
  do 4 eexists. split; [reflexivity | split; [reflexivity |]].
  split; [| split].
  - rewrite scaled_lt by lra. lra.
  - intros ->. cbn. rewrite scaled_lt by lra. lra.
  - intros Hne. apply String.eqb_neq in Hne. rewrite Hne.
    rewrite scaled_lt by lra. lra.
Qed.

Lemma coord2pix_monotone_witness :
  exists pax pay pbx pby,
    coord2pix 0 0 [-180; 180; -90; 90] [512; 256] "upper" = Ok (pax, pay)
    /\ coord2pix 10 20 [-180; 180; -90; 90] [512; 256] "upper" = Ok (pbx, pby)
    /\ (pax < pbx <-> 0 < 10)
    /\ ("upper" = "lower" -> (pay < pby <-> 0 < 20))
    /\ ("upper" <> "lower" -> (pby < pay <-> 0 < 20)).
Proof.
  apply (coord2pix_monotone 0 0 10 20 (-180) 180 (-90) 90 512 256); lra.
Defined.

(** X5. [pix2coord] on limits of zero width and zero height: it divides by
    the dimensions only, so with non-zero dimensions it returns, and every
    pixel is mapped to the single point the limits contain. *)
Theorem pix2coord_degenerate_limits
    (x y cx0 cy0 width height : R) (origin : string) :
  width <> 0 -> height <> 0 ->
  pix2coord x y [cx0; cx0; cy0; cy0] [width; height] origin = Ok (cx0, cy0).
Proof.
  intros Hw Hh. rewrite pix2coord_any by assumption.
  destruct (String.eqb origin "lower"); do 2 f_equal; field; lra.
Qed.

Lemma pix2coord_degenerate_limits_witness :
  pix2coord 128 64 [10; 10; 20; 20] [512; 256] "upper" = Ok (10, 20).
Proof. apply (pix2coord_degenerate_limits 128 64 10 20 512 256); lra. Defined.

(** X6. [pix2coord] raises [ZeroDivisionError] when the image width is zero,
    and when the height is zero, whatever the limits, the pixel and the
    origin. *)
Theorem pix2coord_zero_dimension
    (x y x_min x_max y_min y_max width height : R) (origin : string) :
  width = 0 \/ height = 0 ->
  pix2coord x y [x_min; x_max; y_min; y_max] [width; height] origin
  = Raise ZeroDivisionError.
Proof.
  intros Hzero. unfold pix2coord. cbn.
  destruct (Req_dec_T width 0) as [-> | Hw].
  - now rewrite Rtruediv_zero.
  - destruct Hzero as [Hzero | ->]; [contradiction |].
    rewrite (Rtruediv_ok x width) by assumption. cbn.
    destruct (String.eqb origin "lower"); cbn; now rewrite Rtruediv_zero.
Qed.

Lemma pix2coord_zero_dimension_witness :
  pix2coord 128 64 [-180; 180; -90; 90] [512; 0] "upper"
  = Raise ZeroDivisionError.
Proof.
  apply (pix2coord_zero_dimension 128 64 (-180) 180 (-90) 90 512 0).
  right. reflexivity.
Defined.

(** X7. What [km2pix] converts: multiplied by the length in km of the arc of
    [latextent] degrees on a sphere of radius [a], it gives the image height
    scaled by [dc]. *)
Theorem km2pix_arc_length (imgheight latextent dc a : R) :
  latextent <> 0 -> a <> 0 ->
  exists v,
    km2pix imgheight latextent dc a = Ok v
    /\ v * (a * (latextent * PI / 180)) = imgheight * dc.
Proof.
  intros He Ha. rewrite km2pix_value by assumption.
  eexists. split; [reflexivity |].
  field. split; [| split]; auto using PI_neq0.
Qed.

Lemma km2pix_arc_length_witness :
  exists v,
    km2pix 256 180 1 1737.4 = Ok v
    /\ v * (1737.4 * (180 * PI / 180)) = 256 * 1.
Proof. apply (km2pix_arc_length 256 180 1 1737.4); lra. Defined.

(** X8. [km2pix] depends on the image height and the latitude extent only
    through their ratio: scaling both by the same non-zero factor changes
    nothing. *)
Theorem km2pix_resolution_invariant (k imgheight latextent dc a : R) :
  k <> 0 -> latextent <> 0 -> a <> 0 ->
  km2pix (k * imgheight) (k * latextent) dc a
  = km2pix imgheight latextent dc a.
Proof.
  intros Hk He Ha.
  assert (Hke : k * latextent <> 0) by (apply Rmult_integral_contrapositive; auto).
  rewrite !km2pix_value by assumption.
  f_equal. field. repeat split; auto using PI_neq0.
Qed.

Lemma km2pix_resolution_invariant_witness :
  km2pix (2 * 256) (2 * 180) 1 1737.4 = km2pix 256 180 1 1737.4.
Proof. apply (km2pix_resolution_invariant 2 256 180 1 1737.4); lra. Defined.

End TransformLaws.

(** ** The transforms on Python floats and NumPy arrays *)

Module HostLaws.
Import Transformation Host HostFormulas.
Local Open Scope float_scope.

Lemma lookup_map {A B : Type} (f : A -> B) (l : list A) (i : nat) :
  map f l !! i = f <$> (l !! i).
Proof.
  revert i. induction l as [| a l IH]; intros [| i]; cbn; auto.
Qed.

Section Floats.
Variables x_min x_max y_min y_max width height : float.
Variable origin : string.
Let coord_lim := [PyFloat x_min; PyFloat x_max; PyFloat y_min; PyFloat y_max].
Let imgdim := [PyFloat width; PyFloat height].

Let float_xpix := xpix x_min x_max width.
Let float_ypix := ypix y_min y_max height origin.
Let float_xcoord := xcoord x_min x_max width.
Let float_ycoord := ycoord y_min y_max height origin.

Lemma coord2pix_float_value (cx cy : float) :
  coord2pix (PyFloat cx) (PyFloat cy) coord_lim imgdim origin
  = if PrimFloat.is_zero (x_max - x_min) || PrimFloat.is_zero (y_max - y_min)
    then Raise ZeroDivisionError
    else Ok (PyFloat (float_xpix cx), PyFloat (float_ypix cy)).
Proof.
  subst coord_lim imgdim float_xpix float_ypix.
  unfold coord2pix, xpix, ypix, PrimFloat.is_zero. cbn.
  destruct (x_max - x_min =? zero); [reflexivity |]. cbn.
  destruct (String.eqb origin "lower"); cbn;
    now destruct (y_max - y_min =? zero).
Qed.

Lemma pix2coord_float_value (x y : float) :
  pix2coord (PyFloat x) (PyFloat y) coord_lim imgdim origin
  = if PrimFloat.is_zero width || PrimFloat.is_zero height
    then Raise ZeroDivisionError
    else Ok (PyFloat (float_xcoord x), PyFloat (float_ycoord y)).
Proof.
  subst coord_lim imgdim float_xcoord float_ycoord.
  unfold pix2coord, xcoord, ycoord, PrimFloat.is_zero. cbn.
  destruct (width =? zero); [reflexivity |]. cbn.
  destruct (String.eqb origin "lower"); cbn;
    now destruct (height =? zero).
Qed.

Lemma coord2pix_array_value (cxs cys : list float) :
  coord2pix (NdArray cxs) (NdArray cys) coord_lim imgdim origin
  = Ok (NdArray (map float_xpix cxs), NdArray (map float_ypix cys)).
Proof.
  subst coord_lim imgdim float_xpix float_ypix.
  unfold coord2pix, xpix, ypix. cbn.
  destruct (String.eqb origin "lower"); cbn; now rewrite !map_map.
Qed.

Lemma pix2coord_array_value (xs ys : list float) :
  pix2coord (NdArray xs) (NdArray ys) coord_lim imgdim origin
  = Ok (NdArray (map float_xcoord xs), NdArray (map float_ycoord ys)).
Proof.
  subst coord_lim imgdim float_xcoord float_ycoord.
  unfold pix2coord, xcoord, ycoord. cbn.
  destruct (String.eqb origin "lower"); cbn; now rewrite !map_map.
Qed.
End Floats.

Lemma km2pix_float_value (imgheight latextent dc a : float) :
  km2pix (PyFloat imgheight) (PyFloat latextent) (PyFloat dc) (PyFloat a)
  = if PrimFloat.is_zero latextent || PrimFloat.is_zero a
    then Raise ZeroDivisionError
    else Ok (PyFloat (180 / float_pi * imgheight * dc / latextent / a)).
Proof.
  unfold km2pix, PrimFloat.is_zero. cbn.
  change (float_pi =? zero) with false. cbn.
  destruct (latextent =? zero); [reflexivity |]. cbn.
  now destruct (a =? zero).
Qed.

(** X10. On Python floats [coord2pix] returns exactly when neither computed
    range, [x_max - x_min] and [y_max - y_min], compares equal to zero, and
    it raises nothing but [ZeroDivisionError]: infinite or NaN arguments are
    computed with, not rejected. *)
Theorem coord2pix_float_outcome
    (cx cy x_min x_max y_min y_max width height : float) (origin : string) :
  ((exists p,
      coord2pix (PyFloat cx) (PyFloat cy)
        [PyFloat x_min; PyFloat x_max; PyFloat y_min; PyFloat y_max]
        [PyFloat width; PyFloat height] origin = Ok p)
   <-> PrimFloat.is_zero (x_max - x_min) = false
       /\ PrimFloat.is_zero (y_max - y_min) = false)
  /\ (forall e,
        coord2pix (PyFloat cx) (PyFloat cy)
          [PyFloat x_min; PyFloat x_max; PyFloat y_min; PyFloat y_max]
          [PyFloat width; PyFloat height] origin = Raise e ->
        e = ZeroDivisionError).
Proof.
  rewrite coord2pix_float_value.
  destruct (PrimFloat.is_zero (x_max - x_min));
    destruct (PrimFloat.is_zero (y_max - y_min)); cbn;
    (split; [split; [intros [p Hp]; discriminate || auto
                    | intros [Hx Hy]; discriminate || eauto]
            | intros e He; congruence]).
Qed.

(** X11. On Python floats [pix2coord] returns exactly when neither image
    dimension compares equal to zero, and it raises nothing but
    [ZeroDivisionError]. *)
Theorem pix2coord_float_outcome
    (x y x_min x_max y_min y_max width height : float) (origin : string) :
  ((exists p,
      pix2coord (PyFloat x) (PyFloat y)
        [PyFloat x_min; PyFloat x_max; PyFloat y_min; PyFloat y_max]
        [PyFloat width; PyFloat height] origin = Ok p)
   <-> PrimFloat.is_zero width = false /\ PrimFloat.is_zero height = false)
  /\ (forall e,
        pix2coord (PyFloat x) (PyFloat y)
          [PyFloat x_min; PyFloat x_max; PyFloat y_min; PyFloat y_max]
          [PyFloat width; PyFloat height] origin = Raise e ->
        e = ZeroDivisionError).
Proof.
  rewrite pix2coord_float_value.
  destruct (PrimFloat.is_zero width); destruct (PrimFloat.is_zero height); cbn;
    (split; [split; [intros [p Hp]; discriminate || auto
                    | intros [Hx Hy]; discriminate || eauto]
            | intros e He; congruence]).
Qed.

(** X12. On Python floats [km2pix] returns exactly when neither the latitude
    extent nor the radius compares equal to zero, and it raises nothing but
    [ZeroDivisionError]; a zero image height or scaling factor is no
    error. *)
Theorem km2pix_float_outcome (imgheight latextent dc a : float) :
  ((exists v,
      km2pix (PyFloat imgheight) (PyFloat latextent) (PyFloat dc) (PyFloat a)
      = Ok v)
   <-> PrimFloat.is_zero latextent = false /\ PrimFloat.is_zero a = false)
  /\ (forall e,
        km2pix (PyFloat imgheight) (PyFloat latextent) (PyFloat dc) (PyFloat a)
        = Raise e ->
        e = ZeroDivisionError).
Proof.
  rewrite km2pix_float_value.
  destruct (PrimFloat.is_zero latextent); destruct (PrimFloat.is_zero a); cbn;
    (split; [split; [intros [p Hp]; discriminate || auto
                    | intros [Hx Hy]; discriminate || eauto]
            | intros e He; congruence]).
Qed.

(** X13. Array mode agrees with scalar mode: on arrays of coordinates, with
    scalar limits whose computed ranges are not zero, [coord2pix] returns
    arrays of the lengths of its arguments, and at every position the pixel
    is the one the scalar call returns for the coordinates at that
    position. *)
Theorem coord2pix_array_elementwise
    (cxs cys : list float) (x_min x_max y_min y_max width height : float)
    (origin : string) :
  PrimFloat.is_zero (x_max - x_min) = false ->
  PrimFloat.is_zero (y_max - y_min) = false ->
  exists xs ys,
    coord2pix (NdArray cxs) (NdArray cys)
      [PyFloat x_min; PyFloat x_max; PyFloat y_min; PyFloat y_max]
      [PyFloat width; PyFloat height] origin
    = Ok (NdArray xs, NdArray ys)
    /\ length xs = length cxs /\ length ys = length cys
    /\ forall i cx cy,
         cxs !! i = Some cx -> cys !! i = Some cy ->
         exists x y,
           xs !! i = Some x /\ ys !! i = Some y
           /\ coord2pix (PyFloat cx) (PyFloat cy)
                [PyFloat x_min; PyFloat x_max; PyFloat y_min; PyFloat y_max]
                [PyFloat width; PyFloat height] origin
              = Ok (PyFloat x, PyFloat y).
Proof.
  intros Hx Hy. rewrite coord2pix_array_value.
  do 2 eexists. split; [reflexivity |].
  rewrite !length_map. split; [reflexivity | split; [reflexivity |]].
  intros i cx cy Hcx Hcy.
  rewrite !lookup_map, Hcx, Hcy. cbn [fmap option_fmap option_map].
  do 2 eexists. split; [reflexivity | split; [reflexivity |]].
  now rewrite coord2pix_float_value, Hx, Hy.
Qed.

Lemma coord2pix_array_elementwise_witness :
  exists xs ys,
    coord2pix (NdArray [0; 90; -180]) (NdArray [0; 45; 90])
      [PyFloat (-180); PyFloat 180; PyFloat (-90); PyFloat 90]
      [PyFloat 512; PyFloat 256] "upper"
    = Ok (NdArray xs, NdArray ys)
    /\ length xs = 3%nat /\ length ys = 3%nat
    /\ forall i cx cy,
         [0; 90; -180] !! i = Some cx -> [0; 45; 90] !! i = Some cy ->
         exists x y,
           xs !! i = Some x /\ ys !! i = Some y
           /\ coord2pix (PyFloat cx) (PyFloat cy)
                [PyFloat (-180); PyFloat 180; PyFloat (-90); PyFloat 90]
                [PyFloat 512; PyFloat 256] "upper"
              = Ok (PyFloat x, PyFloat y).
Proof.
  apply (coord2pix_array_elementwise [0; 90; -180] [0; 45; 90]
           (-180) 180 (-90) 90 512 256 "upper"); reflexivity.
Defined.

(** X14. Array mode agrees with scalar mode for [pix2coord] too: with
    non-zero dimensions the coordinates returned for arrays of pixels are,
    position by position, those of the scalar calls. *)
Theorem pix2coord_array_elementwise
    (pxs pys : list float) (x_min x_max y_min y_max width height : float)
    (origin : string) :
  PrimFloat.is_zero width = false -> PrimFloat.is_zero height = false ->
  exists cxs cys,
    pix2coord (NdArray pxs) (NdArray pys)
      [PyFloat x_min; PyFloat x_max; PyFloat y_min; PyFloat y_max]
      [PyFloat width; PyFloat height] origin
    = Ok (NdArray cxs, NdArray cys)
    /\ length cxs = length pxs /\ length cys = length pys
    /\ forall i x y,
         pxs !! i = Some x -> pys !! i = Some y ->
         exists cx cy,
           cxs !! i = Some cx /\ cys !! i = Some cy
           /\ pix2coord (PyFloat x) (PyFloat y)
                [PyFloat x_min; PyFloat x_max; PyFloat y_min; PyFloat y_max]
                [PyFloat width; PyFloat height] origin
              = Ok (PyFloat cx, PyFloat cy).
Proof.
  intros Hw Hh. rewrite pix2coord_array_value.
  do 2 eexists. split; [reflexivity |].
  rewrite !length_map. split; [reflexivity | split; [reflexivity |]].
  intros i x y Hpx Hpy.
  rewrite !lookup_map, Hpx, Hpy. cbn [fmap option_fmap option_map].
  do 2 eexists. split; [reflexivity | split; [reflexivity |]].
  now rewrite pix2coord_float_value, Hw, Hh.
Qed.

Lemma pix2coord_array_elementwise_witness :
  exists cxs cys,
    pix2coord (NdArray [0; 256; 512]) (NdArray [0; 64; 256])
      [PyFloat (-180); PyFloat 180; PyFloat (-90); PyFloat 90]
      [PyFloat 512; PyFloat 256] "upper"
    = Ok (NdArray cxs, NdArray cys)
    /\ length cxs = 3%nat /\ length cys = 3%nat
    /\ forall i x y,
         [0; 256; 512] !! i = Some x -> [0; 64; 256] !! i = Some y ->
         exists cx cy,
           cxs !! i = Some cx /\ cys !! i = Some cy
           /\ pix2coord (PyFloat x) (PyFloat y)
                [PyFloat (-180); PyFloat 180; PyFloat (-90); PyFloat 90]
                [PyFloat 512; PyFloat 256] "upper"
              = Ok (PyFloat cx, PyFloat cy).
Proof.
  apply (pix2coord_array_elementwise [0; 256; 512] [0; 64; 256]
           (-180) 180 (-90) 90 512 256 "upper"); reflexivity.
Defined.

End HostLaws.

(** ** Indexed access and the constructor's loop *)

Module MoonItemLaws.
Import MoonData MoonItem MoonDataFacts.

Lemma getitem_lookup {A : Type} (t : list A) (j : nat) (x : A) :
  t !! j = Some x -> Py.getitem t j = Ok x.
Proof.
  intros Hj. unfold Py.getitem.
  assert (Hnth : nth_error t j = Some x).
  { revert j Hj. induction t as [| a t IH]; intros [| j] Hj; cbn in *;
      try discriminate; auto. }
  now rewrite Hnth.
Qed.

Lemma tuple_getitem_in_range {A : Type} (t : list A) (i : Z) :
  (0 <= i < Z.of_nat (length t))%Z ->
  exists x, t !! Z.to_nat i = Some x /\ tuple_getitem t i = Ok x.
Proof.
  intros Hi. unfold tuple_getitem.
  destruct (i <? 0)%Z eqn:Hneg; [lia |].
  destruct (_ || _) eqn:Hout; [lia |].
  destruct (lookup_lt_is_Some_2 t (Z.to_nat i)) as [x Hx]; [lia |].
  exists x. split; [assumption | now apply getitem_lookup].
Qed.

Lemma tuple_getitem_out_of_range {A : Type} (t : list A) (i : Z) :
  (i < - Z.of_nat (length t) \/ Z.of_nat (length t) <= i)%Z ->
  tuple_getitem t i = Raise IndexError.
Proof.
  intros Hi. unfold tuple_getitem.
  destruct (i <? 0)%Z eqn:Hneg; destruct (_ || _) eqn:Hout; try reflexivity; lia.
Qed.

Lemma tuple_getitem_negative {A : Type} (t : list A) (i : Z) :
  (- Z.of_nat (length t) <= i < 0)%Z ->
  tuple_getitem t i = tuple_getitem t (i + Z.of_nat (length t)).
Proof.
  intros Hi. unfold tuple_getitem. cbv zeta.
  assert (Hneg : (i <? 0)%Z = true) by lia.
  assert (Hneg' : (i + Z.of_nat (length t) <? 0)%Z = false) by lia.
  repeat (rewrite ?Hneg, ?Hneg'; cbv iota). reflexivity.
Qed.

Section GetItem.
Context {image : Type} (decode : string -> result image).

Local Abbreviation getitem := (MoonCrater_getitem decode).

(** X15. Index errors of [__getitem__]: an integer index below [-len] or
    from [len] on raises [IndexError], given as an [int] or as a tensor
    without dimension, and a tensor with a dimension raises [TypeError];
    in each case before any file is opened, so whatever the file tree. *)
Theorem getitem_bad_index (w : world) (self : MoonCrater image) (i : Z) :
  (i < - Z.of_nat (MoonCrater_len self)
   \/ Z.of_nat (MoonCrater_len self) <= i)%Z ->
  getitem w self (Int i) = Raise IndexError
  /\ getitem w self (Tensor (Scalar i)) = Raise IndexError
  /\ (forall l, getitem w self (Tensor (Vector l)) = Raise TypeError).
Proof.
  intros Hout. unfold MoonCrater_getitem, MoonCrater_len in *. cbn.
  rewrite tuple_getitem_out_of_range by assumption.
  repeat split.
Qed.

(** X16. A negative index counts from the end: for [0 <= i < len], index
    [i - len] serves what index [i] serves. *)
Theorem getitem_negative_index (w : world) (self : MoonCrater image) (i : Z) :
  (0 <= i < Z.of_nat (MoonCrater_len self))%Z ->
  getitem w self (Int (i - Z.of_nat (MoonCrater_len self)))
  = getitem w self (Int i).
Proof.
  intros Hi. unfold MoonCrater_getitem, MoonCrater_len in *. cbn.
  rewrite tuple_getitem_negative by lia.
  now replace (i - Z.of_nat (length (files self))
               + Z.of_nat (length (files self)))%Z with i by lia.
Qed.

(** X17. The transform is applied to the image and to the mask alike, after
    both are opened: a dataset with a transform [f] serves [(f image, f mask)]
    where the same dataset without transform serves [(image, mask)], and
    raises what and when that one raises. *)
Theorem getitem_transform (w : world) (f : image -> image)
    (size : Z * Z) (pairs : list (path * path)) (index : index_arg) :
  getitem w {| transform := Some f; img_size := size; files := pairs |} index
  = rmap (fun served => (f served.1, f served.2))
      (getitem w {| transform := None; img_size := size; files := pairs |}
         index).
Proof.
  unfold MoonCrater_getitem, rmap. cbn.
  destruct (tuple_index pairs _) as [data | e]; cbn; [| reflexivity].
  destruct (Image_open decode w data.1) as [img | e]; cbn; [| reflexivity].
  now destruct (Image_open decode w data.2) as [msk | e].
Qed.

(** X18. The files are looked for at construction only: when the image file
    of the pair at a valid index is no longer in the file tree,
    [__getitem__] raises [FileNotFoundError]. *)
Theorem getitem_stale_image (w : world) (self : MoonCrater image)
    (i : Z) (data : path * path) :
  (0 <= i < Z.of_nat (MoonCrater_len self))%Z ->
  files self !! Z.to_nat i = Some data ->
  fs w !! data.1 = None ->
  getitem w self (Int i) = Raise FileNotFoundError.
Proof.
  intros Hi Hdata Hgone. unfold MoonCrater_getitem, MoonCrater_len in *. cbn.
  destruct (tuple_getitem_in_range (files self) i Hi) as (x & Hx & ->).
  assert (x = data) as -> by congruence. cbn.
  unfold Image_open, open_read. now rewrite Hgone.
Qed.
End GetItem.

Import Demo DemoItem.

Lemma getitem_bad_index_witness :
  MoonCrater_getitem demo_decode demo_world demo_dataset (Int 2)
    = Raise IndexError
  /\ MoonCrater_getitem demo_decode demo_world demo_dataset (Tensor (Scalar 2))
     = Raise IndexError
  /\ (forall l,
        MoonCrater_getitem demo_decode demo_world demo_dataset
          (Tensor (Vector l)) = Raise TypeError).
Proof.
  apply (getitem_bad_index demo_decode demo_world demo_dataset 2).
  right. cbn. lia.
Defined.

Lemma getitem_negative_index_witness :
  MoonCrater_getitem demo_decode demo_world demo_dataset
    (Int (0 - Z.of_nat (MoonCrater_len demo_dataset)))
  = MoonCrater_getitem demo_decode demo_world demo_dataset (Int 0).
Proof.
  apply (getitem_negative_index demo_decode demo_world demo_dataset 0).
  cbn. lia.
Defined.

Lemma getitem_stale_image_witness :
  MoonCrater_getitem demo_decode demo_world demo_dataset (Int 1)
  = Raise FileNotFoundError.
Proof.
  apply (getitem_stale_image demo_decode demo_world demo_dataset 1
           (["moon"; "3.png"], ["moon"; "mask"; "3.png"])).
  - cbn. lia.
  - reflexivity.
  - reflexivity.
Defined.

Example demo_getitem_first :
  MoonCrater_getitem demo_decode demo_world demo_dataset (Int (-2))
  = Ok ("image 1", "mask 1").
Proof. reflexivity. Qed.

End MoonItemLaws.

(** ** The constructor: malformed manifests, and what it hands to indexed
    access *)

Module MoonCraterLaws.
Import MoonData MoonItem MoonDataFacts MoonItemLaws.

Lemma dict_get_absent (k : string) (items : list (string * json)) :
  k ∉ items.*1 -> dict_get k items = None.
Proof.
  induction items as [| [k' v] items IH]; cbn; [reflexivity |].
  intros Hnotin. apply not_elem_of_cons in Hnotin as [Hne Hrest].
  rewrite IH by assumption. apply String.eqb_neq in Hne. now rewrite Hne.
Qed.

Lemma dict_keys_nonempty (kv : string * json) (items : list (string * json)) :
  exists k ks, dict_keys (kv :: items) = k :: ks.
Proof.
  unfold dict_keys.
  destruct (reverse (remove_dups (reverse (map fst (kv :: items)))))
    as [| k ks] eqn:Hkeys; [| eauto].
  apply (f_equal reverse) in Hkeys. rewrite reverse_involutive in Hkeys.
  assert (Hin : kv.1 ∈ remove_dups (reverse (map fst (kv :: items)))).
  { apply elem_of_remove_dups, elem_of_reverse. left. }
  rewrite Hkeys in Hin. now apply elem_of_nil in Hin.
Qed.

Lemma size_retained_le (w : world) (root : path) (idx : list Z) :
  size (retained w root idx) <= length idx.
Proof.
  rewrite <- (length_fmap (pair_of root) idx).
  apply submseteq_length, NoDup_submseteq; [apply NoDup_elements |].
  intros p Hp. apply elem_of_elements in Hp. unfold retained in Hp.
  apply elem_of_list_to_set, list_elem_of_filter in Hp. tauto.
Qed.

Lemma retained_ext (w w' : world) (root : path) (idx : list Z) :
  (forall p, is_file w' p = is_file w p) ->
  retained w' root idx = retained w root idx.
Proof.
  intros Hsame. induction idx as [| i idx IH]; [reflexivity |].
  rewrite !retained_cons, IH. unfold both_exist. now rewrite !Hsame.
Qed.

Lemma retained_perm (w : world) (root : path) (idx idx' : list Z) :
  idx ≡ₚ idx' -> retained w root idx = retained w root idx'.
Proof. intros Hperm. unfold retained. now rewrite Hperm. Qed.

Section Constructor.
Context (image : Type) (Path : string -> path).
Context (json_load : string -> result json) (int_of_str : string -> result Z).

Local Abbreviation init := (MoonCrater_init image Path json_load int_of_str).

Lemma indices_app (l1 l2 : list json) :
  indices int_of_str (l1 ++ l2)%list
  = (a ← indices int_of_str l1; b ← indices int_of_str l2;
     Ok (a ++ b)%list).
Proof.
  induction l1 as [| x l1 IH]; cbn [app indices].
  - cbn. now destruct (indices int_of_str l2).
  - destruct (index_of int_of_str x) as [i | e];
      cbn [mbind result_bind bind]; [| reflexivity].
    rewrite IH.
    destruct (indices int_of_str l1) as [a | e];
      cbn [mbind result_bind bind]; [| reflexivity].
    now destruct (indices int_of_str l2).
Qed.

Lemma indices_length (info : list json) (idx : list Z) :
  indices int_of_str info = Ok idx -> length idx = length info.
Proof.
  revert idx. induction info as [| x info IH]; intros idx; cbn [indices].
  - now intros [= <-].
  - destruct (index_of int_of_str x) as [i | e];
      cbn [mbind result_bind bind]; [| discriminate].
    destruct (indices int_of_str info) as [a | e];
      cbn [mbind result_bind bind]; [| discriminate].
    intros [= <-]. cbn. now rewrite (IH a).
Qed.

Lemma indices_perm (info info' : list json) :
  info ≡ₚ info' ->
  forall idx, indices int_of_str info = Ok idx ->
  exists idx', indices int_of_str info' = Ok idx' /\ idx ≡ₚ idx'.
Proof.
  induction 1 as [| x l l' Hperm IH | x y l | l l' l'' H1 IH1 H2 IH2];
    intros idx; cbn [indices].
  - intros [= <-]. eauto.
  - destruct (index_of int_of_str x) as [i | e];
      cbn [mbind result_bind bind]; [| discriminate].
    destruct (indices int_of_str l) as [a | e];
      cbn [mbind result_bind bind]; [| discriminate].
    intros [= <-]. destruct (IH a eq_refl) as (a' & -> & Ha).
    cbn. eexists. split; [reflexivity |]. now constructor.
  - destruct (index_of int_of_str y) as [j | e];
      cbn [mbind result_bind bind]; [| discriminate].
    destruct (index_of int_of_str x) as [i | e];
      cbn [mbind result_bind bind]; [| discriminate].
    destruct (indices int_of_str l) as [a | e];
      cbn [mbind result_bind bind]; [| discriminate].
    intros [= <-]. eexists. split; [reflexivity |]. constructor.
  - intros Hidx. destruct (IH1 idx Hidx) as (idx1 & Hidx1 & Hp1).
    destruct (IH2 idx1 Hidx1) as (idx2 & Hidx2 & Hp2).
    exists idx2. split; [assumption | now transitivity idx1].
Qed.

(** Once the manifest is read and listed, the constructor is the loop. *)
Lemma init_loaded (w : world) (root text : string) (doc : json)
    (info : list json) (transform : option (image -> image)) (image_size : Z) :
  fs w !! (Path root / "data_rec.json")%path = Some (File text) ->
  json_load text = Ok doc -> py_list doc = Ok info ->
  init w root transform image_size
  = (idx ← indices int_of_str info;
     Ok {| transform := transform; img_size := (image_size, image_size);
           files := elements (retained w (Path root) idx) |}).
Proof.
  intros Hfile Hload Hlist.
  unfold MoonCrater_init, py_assert, is_file, open_read.
  rewrite Hfile. cbn. rewrite andb_false_r. cbn.
  rewrite Hload. cbn. rewrite Hlist. cbn.
  rewrite for_each_add_element.
  destruct (indices int_of_str info) as [idx | e]; cbn; [| reflexivity].
  do 3 f_equal. apply union_empty_l_L.
Qed.

(** X19. No partial recovery from a bad record: when the records before it
    convert and [int(element["name"])] raises on one record, the constructor
    raises that exception, whatever records follow and whatever files
    exist. *)
Theorem init_bad_record_aborts (w : world) (root text : string) (doc : json)
    (before after : list json) (bad : json) (idx : list Z) (e : exn)
    (transform : option (image -> image)) (image_size : Z) :
  fs w !! (Path root / "data_rec.json")%path = Some (File text) ->
  json_load text = Ok doc ->
  py_list doc = Ok (before ++ bad :: after)%list ->
  indices int_of_str before = Ok idx ->
  index_of int_of_str bad = Raise e ->
  init w root transform image_size = Raise e.
Proof.
  intros Hfile Hload Hlist Hbefore Hbad.
  rewrite (init_loaded w root text doc _ transform image_size Hfile Hload Hlist).
  rewrite indices_app, Hbefore. cbn [mbind result_bind bind indices].
  now rewrite Hbad.
Qed.

(** X20. A record that is an object without the key "name" makes the
    constructor raise [KeyError], when the records before it convert. *)
Theorem init_missing_name (w : world) (root text : string) (doc : json)
    (before after : list json) (items : list (string * json)) (idx : list Z)
    (transform : option (image -> image)) (image_size : Z) :
  fs w !! (Path root / "data_rec.json")%path = Some (File text) ->
  json_load text = Ok doc ->
  py_list doc = Ok (before ++ JObj items :: after)%list ->
  indices int_of_str before = Ok idx ->
  "name" ∉ items.*1 ->
  init w root transform image_size = Raise KeyError.
Proof.
  intros Hfile Hload Hlist Hbefore Hkey.
  rewrite (init_loaded w root text doc _ transform image_size Hfile Hload Hlist).
  rewrite indices_app, Hbefore. cbn [mbind result_bind bind indices].
  unfold index_of, getitem_key. now rewrite dict_get_absent.
Qed.

(** X21. The dataset never has more items than the manifest has records. *)
Theorem init_len_le_records (w : world) (root text : string) (doc : json)
    (info : list json) (self : MoonCrater image)
    (transform : option (image -> image)) (image_size : Z) :
  fs w !! (Path root / "data_rec.json")%path = Some (File text) ->
  json_load text = Ok doc -> py_list doc = Ok info ->
  init w root transform image_size = Ok self ->
  MoonCrater_len self <= length info.
Proof.
  intros Hfile Hload Hlist.
  rewrite (init_loaded w root text doc info transform image_size Hfile Hload Hlist).
  destruct (indices int_of_str info) as [idx | e] eqn:Hidx; [| discriminate].
  cbn. intros [= <-]. unfold MoonCrater_len. cbn.
  rewrite <- (indices_length info idx Hidx). apply size_retained_le.
Qed.

(** X22. A manifest that is not an array of records: [null], a boolean, a
    number, a non-empty string and a non-empty object all make the
    constructor raise [TypeError] (the keys of an object and the characters
    of a string are iterated as if they were records). *)
Theorem init_manifest_not_array (w : world) (root text : string) (doc : json)
    (transform : option (image -> image)) (image_size : Z) :
  fs w !! (Path root / "data_rec.json")%path = Some (File text) ->
  json_load text = Ok doc ->
  match doc with
  | JArr _ | JObj [] | JStr EmptyString => False
  | _ => True
  end ->
  init w root transform image_size = Raise TypeError.
Proof.
  intros Hfile Hload Hshape.
  assert (Hlist : py_list doc = Raise TypeError
                  \/ exists s rest, py_list doc = Ok (JStr s :: rest)).
  { destruct doc as [| b | n | f | [| c s] | l | [| kv items]];
      try contradiction; cbn [py_list map list_ascii_of_string]; eauto.
    right. destruct (dict_keys_nonempty kv items) as (k & ks & ->).
    cbn [map]. eauto. }
  destruct Hlist as [Hlist | (s & rest & Hlist)].
  - unfold MoonCrater_init, py_assert, is_file, open_read.
    rewrite Hfile. cbn. rewrite andb_false_r. cbn.
    rewrite Hload. cbn. now rewrite Hlist.
  - now rewrite (init_loaded w root text doc _ transform image_size
                   Hfile Hload Hlist).
Qed.

(** X23. The order of the records does not matter: two manifests listing
    the same records in different orders, all of which convert, give
    datasets with the same pairs and the same length. *)
Theorem init_order_irrelevant (w w' : world) (root text text' : string)
    (doc doc' : json) (info info' : list json) (idx : list Z)
    (transform : option (image -> image)) (image_size : Z) :
  fs w !! (Path root / "data_rec.json")%path = Some (File text) ->
  fs w' = <[ (Path root / "data_rec.json")%path := File text' ]> (fs w) ->
  json_load text = Ok doc -> py_list doc = Ok info ->
  json_load text' = Ok doc' -> py_list doc' = Ok info' ->
  info ≡ₚ info' ->
  indices int_of_str info = Ok idx ->
  exists self self',
    init w root transform image_size = Ok self
    /\ init w' root transform image_size = Ok self'
    /\ (forall p, p ∈ files self <-> p ∈ files self')
    /\ MoonCrater_len self = MoonCrater_len self'.
Proof.
  intros Hfile Hfs' Hload Hlist Hload' Hlist' Hperm Hidx.
  destruct (indices_perm info info' Hperm idx Hidx) as (idx' & Hidx' & Hp).
  assert (Hfile' : fs w' !! (Path root / "data_rec.json")%path
                   = Some (File text')).
  { rewrite Hfs'. apply lookup_insert_eq. }
  assert (Hsame : forall p, is_file w' p = is_file w p).
  { intros p. unfold is_file. rewrite Hfs'.
    destruct (decide (p = (Path root / "data_rec.json")%path)) as [-> | Hne].
    - now rewrite lookup_insert_eq, Hfile.
    - now rewrite lookup_insert_ne by congruence. }
  rewrite (init_loaded w root text doc info transform image_size
             Hfile Hload Hlist), Hidx.
  rewrite (init_loaded w' root text' doc' info' transform image_size
             Hfile' Hload' Hlist'), Hidx'.
  cbn. do 2 eexists. split; [reflexivity | split; [reflexivity |]].
  unfold MoonCrater_len. cbn.
  now rewrite (retained_ext w w'), (retained_perm w _ idx idx') by assumption.
Qed.

(** X26. Every record whose image and mask both exist is served, at exactly
    one index of the dataset. *)
Theorem init_each_pair_once (w : world) (root text : string) (doc : json)
    (info : list json) (idx : list Z)
    (transform : option (image -> image)) (image_size : Z) :
  fs w !! (Path root / "data_rec.json")%path = Some (File text) ->
  json_load text = Ok doc -> py_list doc = Ok info ->
  indices int_of_str info = Ok idx ->
  exists self,
    init w root transform image_size = Ok self
    /\ forall k, k ∈ idx ->
       both_exist w (pair_of (Path root) k) = true ->
       exists j,
         j < MoonCrater_len self
         /\ files self !! j = Some (pair_of (Path root) k)
         /\ forall j', files self !! j' = Some (pair_of (Path root) k) -> j' = j.
Proof.
  intros Hfile Hload Hlist Hidx.
  rewrite (init_loaded w root text doc info transform image_size
             Hfile Hload Hlist), Hidx.
  cbn [mbind result_bind bind]. eexists. split; [reflexivity |].
  unfold MoonCrater_len. cbn [files]. intros k Hk Hboth.
  assert (Hin : pair_of (Path root) k ∈ elements (retained w (Path root) idx)).
  { apply elem_of_elements, elem_of_retained. exists k.
    unfold both_exist in Hboth. apply andb_true_iff in Hboth. tauto. }
  apply list_elem_of_lookup in Hin as [j Hj].
  exists j. split; [now apply lookup_lt_Some in Hj |].
  split; [assumption |].
  intros j' Hj'. now apply (NoDup_lookup _ j' j _ (NoDup_elements _) Hj' Hj).
Qed.

End Constructor.

Section Served.
Context (image : Type) (Path : string -> path).
Context (json_load : string -> result json) (int_of_str : string -> result Z).
Context (decode : string -> result image).

Local Abbreviation build := (MoonCrater_init image Path json_load int_of_str).
Local Abbreviation item := (MoonCrater_getitem decode).

(** X24. A manifest without records gives an empty dataset: its length is
    0 and every integer index raises [IndexError]. *)
Theorem init_empty_manifest (w : world) (root text : string) (doc : json)
    (transform : option (image -> image)) (image_size : Z) :
  fs w !! (Path root / "data_rec.json")%path = Some (File text) ->
  json_load text = Ok doc -> py_list doc = Ok [] ->
  exists self,
    build w root transform image_size = Ok self
    /\ MoonCrater_len self = 0
    /\ (forall w' i, item w' self (Int i) = Raise IndexError).
Proof.
  intros Hfile Hload Hlist.
  rewrite (init_loaded image Path json_load int_of_str w root text doc []
             transform image_size Hfile Hload Hlist).
  cbn [indices mbind result_bind bind]. eexists. split; [reflexivity |].
  change (retained w (Path root) []) with (∅ : gset (path * path)).
  rewrite elements_empty. split; [reflexivity |].
  intros w' i. apply getitem_bad_index. cbn. lia.
Qed.

(** X25. What the constructor hands to indexed access, in an unchanged file
    tree: every index from 0 to [len - 1] serves the image and the mask of
    one and the same record index of the manifest, both files are found,
    and the result is their decoded contents, each passed through the
    transform when there is one. *)
Theorem init_getitem_serves (w : world) (root text : string) (doc : json)
    (info : list json) (idx : list Z)
    (transform : option (image -> image)) (image_size : Z) :
  fs w !! (Path root / "data_rec.json")%path = Some (File text) ->
  json_load text = Ok doc -> py_list doc = Ok info ->
  indices int_of_str info = Ok idx ->
  exists self,
    build w root transform image_size = Ok self
    /\ forall i, (0 <= i < Z.of_nat (MoonCrater_len self))%Z ->
       exists k image_text mask_text,
         k ∈ idx
         /\ fs w !! (pair_of (Path root) k).1 = Some (File image_text)
         /\ fs w !! (pair_of (Path root) k).2 = Some (File mask_text)
         /\ item w self (Int i)
            = (a ← decode image_text; b ← decode mask_text;
               Ok (default (fun x => x) transform a,
                   default (fun x => x) transform b)).
Proof.
  intros Hfile Hload Hlist Hidx.
  rewrite (init_loaded image Path json_load int_of_str w root text doc info
             transform image_size Hfile Hload Hlist), Hidx.
  cbn [mbind result_bind bind]. eexists. split; [reflexivity |].
  unfold MoonCrater_len. cbn [files]. intros i Hi.
  destruct (tuple_getitem_in_range _ i Hi) as (data & Hdata & Hget).
  assert (Hin : data ∈ retained w (Path root) idx).
  { apply elem_of_elements, list_elem_of_lookup. eauto. }
  apply elem_of_retained in Hin as (k & Hk & -> & Himg & Hmask).
  unfold is_file in Himg, Hmask.
  destruct (fs w !! (pair_of (Path root) k).1) as [[image_text |] |] eqn:Ei;
    try discriminate.
  destruct (fs w !! (pair_of (Path root) k).2) as [[mask_text |] |] eqn:Em;
    try discriminate.
  exists k, image_text, mask_text. repeat (split; [assumption || reflexivity |]).
  unfold MoonCrater_getitem. cbn [files MoonData.transform tuple_index].
  rewrite Hget. cbn [mbind result_bind bind].
  unfold Image_open, open_read. rewrite Ei, Em. cbn [mbind result_bind bind].
  destruct (decode image_text) as [a | e]; cbn [mbind result_bind bind];
    [| reflexivity].
  destruct (decode mask_text) as [b | e]; cbn [mbind result_bind bind];
    [| reflexivity].
  now destruct transform.
Qed.

End Served.

Import Demo DemoItem.

Lemma init_bad_record_aborts_witness :
  demo_build (demo_world_with "records 1 one 3") = Raise ValueError.
Proof.
  apply (init_bad_record_aborts string demo_Path demo_parse demo_int_of_str
           (demo_world_with "records 1 one 3") "moon" "records 1 one 3"
           demo_records_unreadable
           [JObj [("name", JInt 1)]] [JObj [("name", JInt 3)]]
           (JObj [("name", JStr "one")]) [1%Z]); reflexivity.
Defined.

Lemma init_missing_name_witness :
  demo_build (demo_world_with "records 1 ? 3") = Raise KeyError.
Proof.
  apply (init_missing_name string demo_Path demo_parse demo_int_of_str
           (demo_world_with "records 1 ? 3") "moon" "records 1 ? 3"
           demo_records_nameless
           [JObj [("name", JInt 1)]] [JObj [("name", JInt 3)]]
           [("id", JInt 2)] [1%Z]); try reflexivity.
  cbn. intros Hin. apply list_elem_of_singleton in Hin. discriminate.
Defined.

Lemma init_len_le_records_witness :
  MoonCrater_len
    {| transform := @None (string -> string);
       img_size := (256%Z, 256%Z);
       files := [(["moon"; "1.png"], ["moon"; "mask"; "1.png"])] |}
  <= 4.
Proof.
  apply (init_len_le_records string demo_Path demo_parse demo_int_of_str
           demo_world "moon" "records 1 2 3 1" demo_records
           [JObj [("name", JInt 1)]; JObj [("name", JInt 2)];
            JObj [("name", JInt 3)]; JObj [("name", JStr "1")]]
           _ None image_size_default); reflexivity.
Defined.

Lemma init_manifest_not_array_witness :
  demo_build (demo_world_with "an object") = Raise TypeError.
Proof.
  apply (init_manifest_not_array string demo_Path demo_parse demo_int_of_str
           (demo_world_with "an object") "moon" "an object"
           (JObj [("name", JInt 1)])); [reflexivity | reflexivity | exact I].
Defined.

Lemma init_order_irrelevant_witness :
  exists self self',
    demo_build (demo_world_with "records 1 2 3 1") = Ok self
    /\ demo_build (demo_world_with "records 2 1 3 1") = Ok self'
    /\ (forall p, p ∈ files self <-> p ∈ files self')
    /\ MoonCrater_len self = MoonCrater_len self'.
Proof.
  apply (init_order_irrelevant string demo_Path demo_parse demo_int_of_str
           (demo_world_with "records 1 2 3 1")
           (demo_world_with "records 2 1 3 1")
           "moon" "records 1 2 3 1" "records 2 1 3 1"
           demo_records demo_records_reordered
           [JObj [("name", JInt 1)]; JObj [("name", JInt 2)];
            JObj [("name", JInt 3)]; JObj [("name", JStr "1")]]
           [JObj [("name", JInt 2)]; JObj [("name", JInt 1)];
            JObj [("name", JInt 3)]; JObj [("name", JStr "1")]]
           [1; 2; 3; 1]%Z); try reflexivity.
  apply perm_swap.
Defined.

Lemma init_empty_manifest_witness :
  exists self,
    demo_build (demo_world_with "no records") = Ok self
    /\ MoonCrater_len self = 0
    /\ (forall w' i,
          MoonCrater_getitem demo_decode w' self (Int i) = Raise IndexError).
Proof.
  apply (init_empty_manifest string demo_Path demo_parse demo_int_of_str
           demo_decode (demo_world_with "no records") "moon" "no records"
           (JArr [])); reflexivity.
Defined.

Lemma init_getitem_serves_witness :
  exists self,
    demo_build demo_world = Ok self
    /\ forall i, (0 <= i < Z.of_nat (MoonCrater_len self))%Z ->
       exists k image_text mask_text,
         k ∈ [1; 2; 3; 1]%Z
         /\ fs demo_world !! (pair_of (demo_Path "moon") k).1
            = Some (File image_text)
         /\ fs demo_world !! (pair_of (demo_Path "moon") k).2
            = Some (File mask_text)
         /\ MoonCrater_getitem demo_decode demo_world self (Int i)
            = (a ← demo_decode image_text; b ← demo_decode mask_text;
               Ok (default (fun x => x) None a,
                   default (fun x => x) None b)).
Proof.
  apply (init_getitem_serves string demo_Path demo_parse demo_int_of_str
           demo_decode demo_world "moon" "records 1 2 3 1" demo_records
           [JObj [("name", JInt 1)]; JObj [("name", JInt 2)];
            JObj [("name", JInt 3)]; JObj [("name", JStr "1")]]);
    reflexivity.
Defined.

Lemma init_each_pair_once_witness :
  exists self,
    demo_build demo_world = Ok self
    /\ forall k, k ∈ [1; 2; 3; 1]%Z ->
       both_exist demo_world (pair_of (demo_Path "moon") k) = true ->
       exists j,
         j < MoonCrater_len self
         /\ files self !! j = Some (pair_of (demo_Path "moon") k)
         /\ forall j',
              files self !! j' = Some (pair_of (demo_Path "moon") k) -> j' = j.
Proof.
  apply (init_each_pair_once string demo_Path demo_parse demo_int_of_str
           demo_world "moon" "records 1 2 3 1" demo_records
           [JObj [("name", JInt 1)]; JObj [("name", JInt 2)];
            JObj [("name", JInt 3)]; JObj [("name", JStr "1")]]);
    reflexivity.
Defined.

(** Built from the demonstration tree, the dataset serves the one record
    that has both files. *)
Example demo_build_then_getitem :
  (self ← demo_build demo_world;
   MoonCrater_getitem demo_decode demo_world self (Int 0))
  = Ok ("image 1", "mask 1").
Proof. reflexivity. Qed.

End MoonCraterLaws.

(** ** Where binary64 departs from exact arithmetic *)

Module Rounding.
Import Transformation Host.
Local Open Scope float_scope.


(** C6 as stated fails on Python floats: on the world map with an image of
    512 by 256, the y coordinate 31.1 gets the y pixels 83.768888888888881
    for "upper" and 172.23111111111109 for "lower", whose sum is
    255.99999999999997 and not the height 256. *)
Lemma coord2pix_origin_symmetry_counterexample :
  coord2pix (PyFloat 0) (PyFloat 0x1.f19999999999ap+4)
    [PyFloat (-180); PyFloat 180; PyFloat (-90); PyFloat 90]
    [PyFloat 512; PyFloat 256] "upper"
  = Ok (PyFloat 256, PyFloat 0x1.4f13579be0246p+6)
  /\ coord2pix (PyFloat 0) (PyFloat 0x1.f19999999999ap+4)
       [PyFloat (-180); PyFloat 180; PyFloat (-90); PyFloat 90]
       [PyFloat 512; PyFloat 256] "lower"
     = Ok (PyFloat 256, PyFloat 0x1.587654320fedcp+7)
  /\ 0x1.4f13579be0246p+6 + 0x1.587654320fedcp+7 = 0x1.fffffffffffffp+7
  /\ (0x1.4f13579be0246p+6 + 0x1.587654320fedcp+7 =? 256) = false.
Proof. repeat split. Qed.


End Rounding.

(** ** The origin argument on Python floats *)

Module OriginLaws.
Import Transformation Host HostFormulas HostLaws OriginFacts.
Local Open Scope float_scope.

Section Dispatch.
Variables a b x_min x_max y_min y_max width height : float.
Variable origin : string.
Let coord_lim := [PyFloat x_min; PyFloat x_max; PyFloat y_min; PyFloat y_max].
Let imgdim := [PyFloat width; PyFloat height].

(** C10. [coord2pix] and [pix2coord] compare the origin with the string
    "lower" only. With "lower" they compute the lower-origin formulas; with
    any other origin, the default "upper" and unrecognised strings such as
    "Lower" or "bottom" included, they compute the upper-origin formulas.
    On Python floats the only exception either can raise is
    [ZeroDivisionError], on a zero divisor: no origin is rejected. And for
    every kind of number and every list of limits and dimensions, a
    non-"lower" origin gives exactly what the default gives, value or
    exception alike. *)
Theorem origin_dispatch :
  (origin = "lower" ->
   coord2pix (PyFloat a) (PyFloat b) coord_lim imgdim origin
   = (if PrimFloat.is_zero (x_max - x_min) || PrimFloat.is_zero (y_max - y_min)
      then Raise ZeroDivisionError
      else Ok (PyFloat (width * (a - x_min) / (x_max - x_min)),
               PyFloat (height * (b - y_min) / (y_max - y_min))))
   /\ pix2coord (PyFloat a) (PyFloat b) coord_lim imgdim origin
      = (if PrimFloat.is_zero width || PrimFloat.is_zero height
         then Raise ZeroDivisionError
         else Ok (PyFloat (a / width * (x_max - x_min) + x_min),
                  PyFloat (b / height * (y_max - y_min) + y_min))))
  /\ (origin <> "lower" ->
      coord2pix (PyFloat a) (PyFloat b) coord_lim imgdim origin
      = (if PrimFloat.is_zero (x_max - x_min)
            || PrimFloat.is_zero (y_max - y_min)
         then Raise ZeroDivisionError
         else Ok (PyFloat (width * (a - x_min) / (x_max - x_min)),
                  PyFloat (height * (y_max - b) / (y_max - y_min))))
      /\ pix2coord (PyFloat a) (PyFloat b) coord_lim imgdim origin
         = (if PrimFloat.is_zero width || PrimFloat.is_zero height
            then Raise ZeroDivisionError
            else Ok (PyFloat (a / width * (x_max - x_min) + x_min),
                     PyFloat (y_max - b / height * (y_max - y_min)))))
  /\ (forall (T : Type) (N : Number T) (u v : T) (lim dim : list T),
        origin <> "lower" ->
        coord2pix u v lim dim origin = coord2pix u v lim dim origin_default
        /\ pix2coord u v lim dim origin = pix2coord u v lim dim origin_default).
Proof.
  subst coord_lim imgdim. split; [| split].
  - intros ->. rewrite coord2pix_float_value, pix2coord_float_value.
    unfold xpix, ypix, xcoord, ycoord. cbn [String.eqb Ascii.eqb Bool.eqb].
    split; reflexivity.
  - intros Hne. rewrite coord2pix_float_value, pix2coord_float_value.
    unfold xpix, ypix, xcoord, ycoord.
    apply String.eqb_neq in Hne. rewrite Hne. split; reflexivity.
  - intros T N u v lim dim Hne. unfold origin_default. split.
    + now apply coord2pix_not_lower.
    + now apply pix2coord_not_lower.
Qed.
End Dispatch.

Lemma origin_dispatch_witness :
  coord2pix (PyFloat 0) (PyFloat 45)
    [PyFloat (-180); PyFloat 180; PyFloat (-90); PyFloat 90]
    [PyFloat 512; PyFloat 256] "bottom"
  = (if PrimFloat.is_zero (180 - -180) || PrimFloat.is_zero (90 - -90)
     then Raise ZeroDivisionError
     else Ok (PyFloat (512 * (0 - -180) / (180 - -180)),
              PyFloat (256 * (90 - 45) / (90 - -90))))
  /\ pix2coord (PyFloat 0) (PyFloat 45)
       [PyFloat (-180); PyFloat 180; PyFloat (-90); PyFloat 90]
       [PyFloat 512; PyFloat 256] "bottom"
     = (if PrimFloat.is_zero 512 || PrimFloat.is_zero 256
        then Raise ZeroDivisionError
        else Ok (PyFloat (0 / 512 * (180 - -180) + -180),
                 PyFloat (90 - 45 / 256 * (90 - -90)))).
Proof.
  apply (proj1 (proj2 (origin_dispatch 0 45 (-180) 180 (-90) 90 512 256
                         "bottom"))).
  discriminate.
Defined.

(** The two branches differ: with "lower" the same coordinates get another
    y pixel than with any other origin. *)
Example origin_lower_differs :
  coord2pix (PyFloat 0) (PyFloat 45)
    [PyFloat (-180); PyFloat 180; PyFloat (-90); PyFloat 90]
    [PyFloat 512; PyFloat 256] "lower"
  = Ok (PyFloat 256, PyFloat 192)
  /\ coord2pix (PyFloat 0) (PyFloat 45)
       [PyFloat (-180); PyFloat 180; PyFloat (-90); PyFloat 90]
       [PyFloat 512; PyFloat 256] "Lower"
     = Ok (PyFloat 256, PyFloat 64).
Proof. split; reflexivity. Qed.

End OriginLaws.
